(** * Voice-Activated AI Chatbot: the dispatcher, its handlers and stores

    A shallow embedding of [main.py].  Text is ASCII text (characters above
    127 are carried along unchanged and are neither letters, digits nor
    white space).  The mutable module state ([CONFIG]), the three files under
    [data/] and everything the program emits are one explicit [World] that
    every function threads through; Python exceptions are the [Exc] result of
    a small state-and-error monad. *)

From Stdlib Require Import Ascii String DecimalString ZArith Lia.
From stdpp Require Import base option list gmap strings.

#[local] Arguments String.append !_ _ / : simpl nomatch.

(** ** Python text primitives *)

Module Py.

(** [str.isspace] on one ASCII character: TAB, LF, VT, FF, CR, the four
    separators FS, GS, RS, US and the blank. *)
Definition isspace (c : ascii) : bool :=
  let n := nat_of_ascii c in
  ((9 <=? n) && (n <=? 13)) || ((28 <=? n) && (n <=? 32)).

Definition isdigit (c : ascii) : bool :=
  let n := nat_of_ascii c in (48 <=? n) && (n <=? 57).

Definition isupper (c : ascii) : bool :=
  let n := nat_of_ascii c in (65 <=? n) && (n <=? 90).

Definition islower (c : ascii) : bool :=
  let n := nat_of_ascii c in (97 <=? n) && (n <=? 122).

Definition to_lower (c : ascii) : ascii :=
  if isupper c then ascii_of_nat (nat_of_ascii c + 32) else c.

Definition to_upper (c : ascii) : ascii :=
  if islower c then ascii_of_nat (nat_of_ascii c - 32) else c.

(** [s.lower()] on ASCII text: the letters A to Z are lowered, every
    other character stays. *)
Fixpoint lower (s : string) : string :=
  match s with
  | EmptyString => EmptyString
  | String c s' => String (to_lower c) (lower s')
  end.

(** [s.title()] on ASCII text: a letter that follows a letter is lowered,
    any other letter is raised; the letters are A to Z and a to z. *)
Fixpoint title_from (after_letter : bool) (s : string) : string :=
  match s with
  | EmptyString => EmptyString
  | String c s' =>
      if isupper c || islower c
      then String (if after_letter then to_lower c else to_upper c)
                  (title_from true s')
      else String c (title_from false s')
  end.

Definition title (s : string) : string := title_from false s.

Fixpoint lstrip (s : string) : string :=
  match s with
  | EmptyString => EmptyString
  | String c s' => if isspace c then lstrip s' else s
  end.

Fixpoint rstrip (s : string) : string :=
  match s with
  | EmptyString => EmptyString
  | String c s' =>
      match rstrip s' with
      | EmptyString => if isspace c then EmptyString else String c EmptyString
      | r => String c r
      end
  end.

(** [s.strip()] on ASCII text: the white space of [isspace] is taken
    off both ends. *)
Definition strip (s : string) : string := rstrip (lstrip s).

(** [s.split()]: the maximal runs of non-blank characters.  [cur] is the
    run being read, [None] between runs. *)
Fixpoint split_from (cur : option string) (s : string) : list string :=
  match s with
  | EmptyString => match cur with Some t => [t] | None => [] end
  | String c s' =>
      if isspace c
      then match cur with
           | Some t => t :: split_from None s'
           | None => split_from None s'
           end
      else split_from (Some (match cur with
                             | Some t => t +:+ String c EmptyString
                             | None => String c EmptyString
                             end)) s'
  end.

Definition split (s : string) : list string := split_from None s.

(** [p] is an initial segment of [s] ([s.startswith(p)]). *)
Fixpoint startswith (p s : string) : bool :=
  match p, s with
  | EmptyString, _ => true
  | String a p', String b s' => if decide (a = b) then startswith p' s' else false
  | String _ _, EmptyString => false
  end.

(** [kw in s] on strings: [kw] occurs in [s] at some offset. *)
Fixpoint contains (kw s : string) : bool :=
  startswith kw s ||
  match s with
  | EmptyString => false
  | String _ s' => contains kw s'
  end.

(** [any(kw in s for kw in kws)] *)
Definition any_in (kws : list string) (s : string) : bool :=
  existsb (fun kw => contains kw s) kws.

(** [s.replace(' ', '+')] *)
Fixpoint plus_for_blank (s : string) : string :=
  match s with
  | EmptyString => EmptyString
  | String c s' =>
      String (if decide (c = " "%char) then "+"%char else c) (plus_for_blank s')
  end.

(** [re.sub(r"(a1|a2|...)", "", s)] for literal alternatives: scanning from
    the left, at each offset the first alternative that starts there is cut
    out and the scan resumes behind it; where none starts the character is
    kept. *)
Fixpoint first_alt (alts : list string) (s : string) : option nat :=
  match alts with
  | [] => None
  | a :: rest =>
      if startswith a s then Some (String.length a) else first_alt rest s
  end.

Fixpoint sub_from (alts : list string) (skip : nat) (s : string) : string :=
  match s with
  | EmptyString => EmptyString
  | String c s' =>
      match skip with
      | S k => sub_from alts k s'
      | O =>
          match first_alt alts s with
          | Some (S k) => sub_from alts k s'
          | _ => String c (sub_from alts 0 s')
          end
      end
  end.

Definition re_sub_alts (alts : list string) (s : string) : string :=
  sub_from alts 0 s.

(** [re.search(r"\d+", s)] on ASCII text: the first maximal run of the
    digits 0 to 9, [None] when [s] has none. *)
Fixpoint digit_run (s : string) : string :=
  match s with
  | String c s' => if isdigit c then String c (digit_run s') else EmptyString
  | EmptyString => EmptyString
  end.

Fixpoint re_search_digits (s : string) : option string :=
  match s with
  | EmptyString => None
  | String c s' => if isdigit c then Some (digit_run s) else re_search_digits s'
  end.

(** [int(ds)] for a run of digits. *)
Fixpoint int_from (acc : Z) (ds : string) : Z :=
  match ds with
  | EmptyString => acc
  | String c ds' => int_from (10 * acc + Z.of_nat (nat_of_ascii c - 48)) ds'
  end.

Definition int (ds : string) : Z := int_from 0 ds.

(** [str(n)] for a natural number. *)
Definition str_nat (n : nat) : string := NilZero.string_of_uint (Nat.to_uint n).

(** A Python sequence index: negative indices count from the end. *)
Definition index_of (len : nat) (i : Z) : option nat :=
  if decide (0 <= i < Z.of_nat len)%Z then Some (Z.to_nat i)
  else if decide (- Z.of_nat len <= i < 0)%Z then Some (Z.to_nat (Z.of_nat len + i))
  else None.

(** [l[-n:]]; [l[-0:]] is all of [l]. *)
Definition last_n {A} (n : nat) (l : list A) : list A :=
  match n with
  | O => l
  | S _ => drop (length l - n) l
  end.

(** Text-mode reading: CR LF and a lone CR both arrive as LF. *)
Definition LF : ascii := "010"%char.
Definition CR : ascii := "013"%char.

Fixpoint universal_newlines (s : string) : string :=
  match s with
  | EmptyString => EmptyString
  | String c s' =>
      if decide (c = CR)
      then String LF (match s' with
                      | String c' s'' =>
                          if decide (c' = LF) then universal_newlines s''
                          else universal_newlines s'
                      | EmptyString => EmptyString
                      end)
      else String c (universal_newlines s')
  end.

(** [f.readlines()] on translated text: every line keeps its LF; a last
    line without one is kept as it is. *)
Fixpoint lines_of (s : string) : list string :=
  match s with
  | EmptyString => []
  | String c s' =>
      if decide (c = LF) then String c EmptyString :: lines_of s'
      else match lines_of s' with
           | [] => [String c EmptyString]
           | l :: ls => String c l :: ls
           end
  end.

Definition readlines (s : string) : list string :=
  lines_of (universal_newlines s).

End Py.

(** ** Data model *)

(** A scalar of a JSON document.  A float is carried as its literal. *)
Inductive JVal :=
  | JStr (s : string)
  | JInt (n : Z)
  | JFloat (literal : string)
  | JBool (b : bool).

(** [str(v)], as an f-string renders a setting. *)
Definition py_str (v : JVal) : string :=
  match v with
  | JStr s => s
  | JInt n => if decide (n < 0)%Z then "-" +:+ Py.str_nat (Z.to_nat (- n))
              else Py.str_nat (Z.to_nat n)
  | JFloat l => l
  | JBool true => "True"
  | JBool false => "False"
  end.

(** One entry of [todo.json]. *)
Record Task := mkTask { task : string; done : bool; added : string }.

(** [datetime.datetime.now()] *)
Record DateTime := mkDateTime {
  year : nat; month : nat; day : nat;
  hour : nat; minute : nat; second : nat; microsecond : nat }.

(** What one capture of the microphone comes to inside [listen]. *)
Inductive Heard :=
  | WaitTimeout
  | Recognised (query : string)
  | UnknownValue
  | RequestError (detail : string).

(** What [wikipedia.summary] comes to. *)
Inductive WikiReply :=
  | Summary (text : string)
  | Disambiguation (options : list string)
  | PageMissing
  | WikiFault (detail : string).

(** The functions of the routing table. *)
Inductive Handler :=
  | CmdTime | CmdDate | CmdOpenSite | CmdSearchGoogle | CmdSearchYoutube
  | CmdWikipedia | CmdWriteNote | CmdReadNotes | CmdAddTodo | CmdReadTodos
  | CmdCompleteTodo | CmdShutdown | CmdRestart | CmdLock | CmdVolumeUp
  | CmdVolumeDown | CmdOpenApp | CmdJoke | CmdHowAreYou | CmdName
  | CmdCreator | CmdChangeAssistantName | CmdChangeUserName | CmdHelp.

(** Everything the program lets out, in the order it happens. *)
Inductive Event :=
  | Say (text : string)          (* speak(text) *)
  | Print (line : string)        (* print(line) by a handler or the dispatcher *)
  | OpenUrl (url : string)       (* webbrowser.open(url) *)
  | OsSystem (command : string)  (* os.system(command) *)
  | WikiLookup (topic : string). (* wikipedia.summary(topic, ...) *)

Record World := mkWorld {
  config : gmap string JVal;               (* the global CONFIG *)
  config_file : option (gmap string JVal); (* data/config.json *)
  notes_file : option string;              (* data/notes.txt *)
  todo_file : option (list Task);          (* data/todo.json *)
  data_dir : bool;                         (* data/ exists *)
  heard : nat;                             (* microphone captures so far *)
  typed : nat;                             (* keyboard lines so far *)
  ticks : nat;                             (* clock readings so far *)
  trace : list Event
}.

Definition emit (e : Event) (w : World) : World :=
  mkWorld (config w) (config_file w) (notes_file w) (todo_file w) (data_dir w)
          (heard w) (typed w) (ticks w) (trace w ++ [e]).

Definition set_config (c : gmap string JVal) (w : World) : World :=
  mkWorld c (config_file w) (notes_file w) (todo_file w) (data_dir w)
          (heard w) (typed w) (ticks w) (trace w).

Definition set_config_file (f : option (gmap string JVal)) (w : World) : World :=
  mkWorld (config w) f (notes_file w) (todo_file w) (data_dir w)
          (heard w) (typed w) (ticks w) (trace w).

Definition set_notes_file (f : option string) (w : World) : World :=
  mkWorld (config w) (config_file w) f (todo_file w) (data_dir w)
          (heard w) (typed w) (ticks w) (trace w).

Definition set_todo_file (f : option (list Task)) (w : World) : World :=
  mkWorld (config w) (config_file w) (notes_file w) f (data_dir w)
          (heard w) (typed w) (ticks w) (trace w).

(** [path.parent.mkdir(parents=True, exist_ok=True)] *)
Definition make_data_dir (w : World) : World :=
  mkWorld (config w) (config_file w) (notes_file w) (todo_file w) true
          (heard w) (typed w) (ticks w) (trace w).

Definition next_heard (w : World) : World :=
  mkWorld (config w) (config_file w) (notes_file w) (todo_file w) (data_dir w)
          (S (heard w)) (typed w) (ticks w) (trace w).

Definition next_typed (w : World) : World :=
  mkWorld (config w) (config_file w) (notes_file w) (todo_file w) (data_dir w)
          (heard w) (S (typed w)) (ticks w) (trace w).

Definition next_tick (w : World) : World :=
  mkWorld (config w) (config_file w) (notes_file w) (todo_file w) (data_dir w)
          (heard w) (typed w) (S (ticks w)) (trace w).

(** ** Exceptions and the monad of the program *)

Inductive ExnClass :=
  | AttributeError | IndexError | ValueError | KeyError
  | OtherException (name : string).

#[global] Instance ExnClass_eq_dec : EqDecision ExnClass.
Proof. solve_decision. Defined.

(** An instance of Python's [Exception] (what [except Exception] selects). *)
Record PyExn := mkExn { exn_class : ExnClass; exn_text : string }.

Inductive Res (A : Type) :=
  | Val (a : A)
  | Exc (e : PyExn).
Arguments Val {A} a.
Arguments Exc {A} e.

Definition M (A : Type) : Type := World -> Res A * World.

Definition ret {A} (a : A) : M A := fun w => (Val a, w).

Definition bind {A B} (m : M A) (k : A -> M B) : M B :=
  fun w => match m w with
           | (Val a, w') => k a w'
           | (Exc e, w') => (Exc e, w')
           end.

Definition raise {A} (c : ExnClass) (text : string) : M A :=
  fun w => (Exc (mkExn c text), w).

(** [try: body except (classes): recover] *)
Definition try_except {A} (body : M A) (classes : list ExnClass) (recover : M A) : M A :=
  fun w => match body w with
           | (Exc e, w') =>
               if bool_decide (exn_class e ∈ classes) then recover w'
               else (Exc e, w')
           | r => r
           end.

(** [try: body except Exception as e: recover(e)] *)
Definition try_except_Exception {A} (body : M A) (recover : PyExn -> M A) : M A :=
  fun w => match body w with
           | (Exc e, w') => recover e w'
           | r => r
           end.

Notation "'let*' x ':=' m 'in' k" := (bind m (fun x => k))
  (at level 10, x name, m at level 100, k at level 200).
Notation "'run*' m 'in' k" := (bind m (fun _ => k))
  (at level 10, m at level 100, k at level 200).

Definition modify (f : World -> World) : M unit := fun w => (Val tt, f w).
Definition gets {A} (f : World -> A) : M A := fun w => (Val (f w), w).

(** The surroundings of the program: what the microphone, the keyboard, the
    clock and the encyclopedia answer, the platform, and the handlers whose
    bodies only drive external services. *)
Record Env := mkEnv {
  mic : nat -> Heard;
  keyboard : nat -> string;
  clock : nat -> DateTime;
  platform : string;
  wikipedia_summary : string -> WikiReply;
  external : Handler -> string -> M unit
}.

(** ** Configuration *)

Definition DEFAULT_CONFIG : list (string * JVal) :=
  [ ("assistant_name", JStr "Aria");
    ("user_name", JStr "User");
    ("voice_rate", JInt 175);
    ("voice_volume", JFloat "1.0");
    ("language", JStr "en-US");
    ("pause_threshold", JFloat "0.8");
    ("energy_threshold", JInt 300);
    ("dynamic_energy", JBool true);
    ("timeout", JInt 5);
    ("phrase_time_limit", JInt 10) ].

(** [d.setdefault(k, v)] *)
Definition setdefault (k : string) (v : JVal) (d : gmap string JVal) : gmap string JVal :=
  match d !! k with
  | Some _ => d
  | None => <[k := v]> d
  end.

(** [for k, v in defaults.items(): cfg.setdefault(k, v)] *)
Definition fill_defaults (defaults : list (string * JVal)) (cfg : gmap string JVal)
  : gmap string JVal :=
  foldl (fun cfg kv => setdefault kv.1 kv.2 cfg) cfg defaults.

Definition load_config : M (gmap string JVal) :=
  run* modify make_data_dir in
  let* f := gets config_file in
  match f with
  | Some cfg => ret (fill_defaults DEFAULT_CONFIG cfg)
  | None =>
      run* modify (set_config_file (Some (list_to_map DEFAULT_CONFIG))) in
      ret (list_to_map DEFAULT_CONFIG)
  end.

(** [CONFIG = load_config()] at import time. *)
Definition startup : M unit :=
  let* cfg := load_config in modify (set_config cfg).

(** [CONFIG[k]].  The text of the [KeyError] is the key as [repr] writes
    it; the keys looked up are plain names, so that is the key between
    single quotes. *)
Definition config_get (k : string) : M JVal :=
  fun w => match config w !! k with
           | Some v => (Val v, w)
           | None => (Exc (mkExn KeyError ("'" +:+ k +:+ "'")), w)
           end.

(** [with open(CONFIG_FILE, "w") as f: json.dump(CONFIG, f, indent=4)] *)
Definition dump_config : M unit :=
  modify (fun w => set_config_file (Some (config w)) w).

(** ** Core input and output *)

Definition nonempty (s : string) : bool :=
  match s with EmptyString => false | String _ _ => true end.

(** [speak(text)]: the utterance; its echo on the console is the same text
    behind [CONFIG['assistant_name']] and is not a separate event.  The
    echo, like the settings [listen] hands to the recogniser, reads keys
    of the default set, which [load_config] has put into [CONFIG] before
    anything is spoken. *)
Definition speak (text : string) : M unit := modify (emit (Say text)).

Definition print (line : string) : M unit := modify (emit (Print line)).

Definition webbrowser_open (url : string) : M unit := modify (emit (OpenUrl url)).

Definition os_system (command : string) : M unit := modify (emit (OsSystem command)).

(** [for x in xs: body(x)] *)
Fixpoint for_each {A} (body : A -> M unit) (xs : list A) : M unit :=
  match xs with
  | [] => ret tt
  | x :: rest => run* body x in for_each body rest
  end.

(** [enumerate(xs, start)] *)
Fixpoint enumerate {A} (start : nat) (xs : list A) : list (nat * A) :=
  match xs with
  | [] => []
  | x :: rest => (start, x) :: enumerate (S start) rest
  end.

Fixpoint zeros (k : nat) : string :=
  match k with O => EmptyString | S k' => String "0" (zeros k') end.

(** A number in at least [width] digits, as [%m], [%d], [%H], [%M] and the
    like print it. *)
Definition zpad (width n : nat) : string :=
  let s := Py.str_nat n in zeros (width - String.length s) +:+ s.

(** [t.strftime("[%Y-%m-%d %H:%M]")] *)
Definition note_timestamp (t : DateTime) : string :=
  "[" +:+ zpad 4 (year t) +:+ "-" +:+ zpad 2 (month t) +:+ "-" +:+ zpad 2 (day t)
      +:+ " " +:+ zpad 2 (hour t) +:+ ":" +:+ zpad 2 (minute t) +:+ "]".

(** [str(t)] *)
Definition str_datetime (t : DateTime) : string :=
  zpad 4 (year t) +:+ "-" +:+ zpad 2 (month t) +:+ "-" +:+ zpad 2 (day t)
  +:+ " " +:+ zpad 2 (hour t) +:+ ":" +:+ zpad 2 (minute t) +:+ ":" +:+ zpad 2 (second t)
  +:+ (if decide (microsecond t = 0) then "" else "." +:+ zpad 6 (microsecond t)).

Section Program.

Context (E : Env).

(** [datetime.datetime.now()] *)
Definition now : M DateTime :=
  fun w => (Val (clock E (ticks w)), next_tick w).

(** [listen(prompt)]: the prompt is spoken when there is one, one capture of
    the microphone is taken, and the recognised text comes back lowered and
    stripped; every failure comes back as the empty string, two of them
    after an utterance of [listen] itself.  Console lines are left out. *)
Definition listen (prompt : string) : M string :=
  run* (if nonempty prompt then speak prompt else ret tt) in
  let* h := (fun w => (Val (mic E (heard w)), next_heard w)) in
  match h with
  | WaitTimeout => ret ""
  | Recognised query => ret (Py.strip (Py.lower query))
  | UnknownValue =>
      run* speak "Sorry, I didn't catch that. Could you repeat?" in ret ""
  | RequestError _ =>
      run* speak "I'm having trouble reaching the speech service. Please check your internet." in
      ret ""
  end.

(** [take_text_input()] *)
Definition take_text_input : M string :=
  fun w => (Val (Py.strip (Py.lower (keyboard E (typed w)))), next_typed w).

Definition wish_me : M unit :=
  let* t := now in
  let greeting :=
    if (5 <=? hour t) && (hour t <? 12) then "Good morning"
    else if (12 <=? hour t) && (hour t <? 17) then "Good afternoon"
    else if (17 <=? hour t) && (hour t <? 21) then "Good evening"
    else "Hello" in
  let* user := config_get "user_name" in
  let* name := config_get "assistant_name" in
  speak (greeting +:+ ", " +:+ py_str user +:+ "! I'm " +:+ py_str name
         +:+ ", your voice assistant. "
         +:+ "How can I help you today? Say 'help' for a list of commands.").

(** *** Web and encyclopedia *)

Definition cmd_search_google (query : string) : M unit :=
  let term := Py.strip (Py.re_sub_alts ["search"; "google"; "for"; "on"] query) in
  let* term := (if nonempty term then ret term
                else listen "What would you like me to search for?") in
  if nonempty term then
    run* speak ("Searching Google for: " +:+ term) in
    webbrowser_open ("https://www.google.com/search?q=" +:+ Py.plus_for_blank term)
  else ret tt.

Definition cmd_wikipedia (query : string) : M unit :=
  let topic := Py.strip (Py.re_sub_alts
    ["wikipedia"; "wiki"; "who is"; "what is"; "tell me about"; "search"] query) in
  let* topic := (if nonempty topic then ret topic
                 else listen "What topic would you like me to look up on Wikipedia?") in
  if nonempty topic then
    run* speak ("Searching Wikipedia for: " +:+ topic) in
    run* modify (emit (WikiLookup topic)) in
    match wikipedia_summary E topic with
    | Summary summary => speak summary
    | Disambiguation options =>
        speak ("There are multiple results. Did you mean: "
               +:+ String.concat ", " (take 4 options) +:+ "?")
    | PageMissing => speak "I couldn't find a Wikipedia page for that topic."
    | WikiFault detail =>
        run* speak "Something went wrong while fetching Wikipedia." in
        print ("   [WikiError] " +:+ detail)
    end
  else ret tt.

(** *** Notes *)

(** The tail of [cmd_write_note], run once a note text is there: stamp it,
    append one line to [notes.txt] (created when absent), confirm. *)
Definition append_note (note : string) : M unit :=
  let* t := now in
  let timestamp := note_timestamp t in
  run* modify (fun w =>
    set_notes_file
      (Some (default "" (notes_file w) +:+ timestamp +:+ " " +:+ note +:+ String Py.LF ""))
      w) in
  speak "Note saved!".

Definition cmd_write_note (query : string) : M unit :=
  run* modify make_data_dir in
  let note := Py.strip (Py.re_sub_alts
    ["write"; "take"; "make"; "a"; "note"; "saying"; "that"] query) in
  let* note := (if nonempty note then ret note
                else listen "What would you like to note down?") in
  if nonempty note then append_note note else ret tt.

Definition cmd_read_notes (_ : string) : M unit :=
  let* f := gets notes_file in
  match f with
  | None | Some EmptyString => speak "You have no notes saved."
  | Some text =>
      let notes := Py.readlines text in
      run* speak ("You have " +:+ Py.str_nat (length notes) +:+ " note(s).") in
      for_each (fun '(i, note) =>
                  speak ("Note " +:+ Py.str_nat i +:+ ": " +:+ Py.strip note))
               (enumerate 1 (Py.last_n 5 notes))
  end.

(** *** To-do list *)

Definition _load_todos : M (list Task) :=
  run* modify make_data_dir in
  let* f := gets todo_file in
  ret (default [] f).

Definition _save_todos (todos : list Task) : M unit :=
  modify (set_todo_file (Some todos)).

(** [[t for t in todos if not t["done"]]] *)
Definition pending_of (todos : list Task) : list Task :=
  filter (fun t => done t = false) todos.

Definition cmd_add_todo (query : string) : M unit :=
  let task_text := Py.strip (Py.re_sub_alts
    ["add"; "to do"; "todo"; "task"; "reminder"; "remind me to"] query) in
  let* task_text := (if nonempty task_text then ret task_text
                     else listen "What task would you like to add?") in
  if nonempty task_text then
    let* todos := _load_todos in
    let* t := now in
    run* _save_todos (todos ++ [mkTask task_text false (str_datetime t)]) in
    speak ("Added to your to-do list: " +:+ task_text)
  else ret tt.

Definition cmd_read_todos (_ : string) : M unit :=
  let* todos := _load_todos in
  let pending := pending_of todos in
  match pending with
  | [] => speak "Your to-do list is empty."
  | _ =>
      run* speak ("You have " +:+ Py.str_nat (length pending) +:+ " pending task(s).") in
      for_each (fun '(i, t) => speak (Py.str_nat i +:+ ". " +:+ task t))
               (enumerate 1 pending)
  end.

(** [xs[i]], raising [IndexError] out of range. *)
Definition getitem {A} (xs : list A) (i : Z) : M A :=
  match Py.index_of (length xs) i ≫= (xs !!.) with
  | Some x => ret x
  | None => raise IndexError "list index out of range"
  end.

(** [t["done"] = True] *)
Definition finished (t : Task) : Task := mkTask (task t) true (added t).

(** [todos[i]["done"] = True]: the entry is looked up as [getitem] does and
    its flag is set in place. *)
Definition mark_done (todos : list Task) (i : Z) : M (list Task) :=
  match Py.index_of (length todos) i with
  | Some n => ret (alter finished n todos)
  | None => raise IndexError "list index out of range"
  end.

(** [pending] holds the very entries of [todos]; setting the flag of one
    of them changes neither which entries [pending] holds nor any
    description, so the later [pending[num]['task']] reads what it would
    have read before. *)
Definition cmd_complete_todo (_ : string) : M unit :=
  let* todos := _load_todos in
  let pending := pending_of todos in
  match pending with
  | [] => speak "No pending tasks."
  | _ =>
      run* cmd_read_todos "" in
      let* response := listen "Which task number did you complete?" in
      try_except
        (let* digits := (match Py.re_search_digits response with
                         | Some ds => ret ds
                         | None => raise AttributeError
                                     "'NoneType' object has no attribute 'group'"
                         end) in
         let num := (Py.int digits - 1)%Z in
         let* todos := mark_done todos num in
         run* _save_todos todos in
         let* t := getitem pending num in
         speak ("Great job! Marked '" +:+ task t +:+ "' as done."))
        [AttributeError; IndexError; ValueError]
        (speak "I couldn't identify that task number.")
  end.

(** *** System commands *)

Definition cmd_shutdown (_ : string) : M unit :=
  let* confirm := listen "Are you sure you want to shut down?" in
  if Py.contains "yes" confirm then
    run* speak "Shutting down. Goodbye!" in
    if decide (platform E = "win32") then os_system "shutdown /s /t 5"
    else os_system "shutdown -h now"
  else speak "Shutdown cancelled.".

Definition cmd_restart (_ : string) : M unit :=
  let* confirm := listen "Are you sure you want to restart?" in
  if Py.contains "yes" confirm then
    run* speak "Restarting. See you soon!" in
    if decide (platform E = "win32") then os_system "shutdown /r /t 5"
    else os_system "shutdown -r now"
  else speak "Restart cancelled.".

(** *** Settings *)

Definition cmd_change_assistant_name (_ : string) : M unit :=
  let* new_name := listen "What would you like to call me?" in
  if nonempty new_name then
    run* modify (fun w =>
      set_config (<["assistant_name" := JStr (Py.title new_name)]> (config w)) w) in
    run* dump_config in
    let* name := config_get "assistant_name" in
    speak ("Okay! You can now call me " +:+ py_str name +:+ ".")
  else ret tt.

Definition cmd_change_user_name (_ : string) : M unit :=
  let* new_name := listen "What's your name?" in
  if nonempty new_name then
    run* modify (fun w =>
      set_config (<["user_name" := JStr (Py.title new_name)]> (config w)) w) in
    run* dump_config in
    let* name := config_get "user_name" in
    speak ("Got it! I'll call you " +:+ py_str name +:+ " from now on.")
  else ret tt.

(** ** Routing table and dispatcher *)

Definition COMMAND_TABLE : list (list string * Handler) :=
  [ (["what time"; "current time"; "time is it"], CmdTime);
    (["what date"; "today's date"; "what day"], CmdDate);
    (["open google"; "open youtube"; "open github";
      "open gmail"; "open maps"; "open reddit";
      "open twitter"; "open linkedin"; "open stackoverflow"], CmdOpenSite);
    (["search for"; "google for"; "search google"], CmdSearchGoogle);
    (["youtube"; "play on youtube"; "search youtube"], CmdSearchYoutube);
    (["wikipedia"; "wiki"; "who is"; "tell me about";
      "what is"; "explain"], CmdWikipedia);
    (["write a note"; "take a note"; "make a note";
      "note that"; "note down"], CmdWriteNote);
    (["read my notes"; "show notes"; "my notes"], CmdReadNotes);
    (["add task"; "add to do"; "remind me";
      "add reminder"; "new task"], CmdAddTodo);
    (["read my tasks"; "my tasks"; "show tasks";
      "to do list"; "todo list"], CmdReadTodos);
    (["complete task"; "mark done"; "finished task"], CmdCompleteTodo);
    (["shut down"; "shutdown"; "power off"], CmdShutdown);
    (["restart"; "reboot"], CmdRestart);
    (["lock screen"; "lock computer"; "lock the screen"], CmdLock);
    (["volume up"; "increase volume"; "louder"], CmdVolumeUp);
    (["volume down"; "decrease volume"; "quieter"], CmdVolumeDown);
    (["open calculator"; "open notepad"; "open paint";
      "open file manager"], CmdOpenApp);
    (["tell me a joke"; "joke"; "make me laugh"], CmdJoke);
    (["how are you"; "how do you do"], CmdHowAreYou);
    (["your name"; "who are you"; "what are you called"], CmdName);
    (["who made you"; "who created you"; "your creator"], CmdCreator);
    (["change your name"; "rename yourself"], CmdChangeAssistantName);
    (["change my name"; "my name is"], CmdChangeUserName);
    (["help"; "what can you do"; "commands"; "features"], CmdHelp) ].

Definition EXIT_KEYWORDS : list string :=
  ["exit"; "quit"; "goodbye"; "bye"; "stop"; "shut up"].

(** The function a table entry holds.  The handlers that only drive the
    clock display, the browser, the mixer, the launcher and the small talk
    are taken from the surroundings. *)
Definition call (handler : Handler) : string -> M unit :=
  match handler with
  | CmdSearchGoogle => cmd_search_google
  | CmdWikipedia => cmd_wikipedia
  | CmdWriteNote => cmd_write_note
  | CmdReadNotes => cmd_read_notes
  | CmdAddTodo => cmd_add_todo
  | CmdReadTodos => cmd_read_todos
  | CmdCompleteTodo => cmd_complete_todo
  | CmdShutdown => cmd_shutdown
  | CmdRestart => cmd_restart
  | CmdChangeAssistantName => cmd_change_assistant_name
  | CmdChangeUserName => cmd_change_user_name
  | other => external E other
  end.

(** The body of the [try] in [dispatch] with its [except Exception]. *)
Definition guarded (handler : Handler) (query : string) : M unit :=
  try_except_Exception (call handler query)
    (fun e =>
       run* speak "Sorry, something went wrong with that command." in
       print ("   [Error] " +:+ exn_text e)).

(** What [dispatch] does behind its loop, when no entry matched. *)
Definition fallback (query : string) : M bool :=
  run* (if 3 <=? length (Py.split query) then
          run* speak "I'm not sure about that, but let me check Wikipedia." in
          cmd_wikipedia query
        else
          speak "I didn't understand that command. Try saying 'help' to see what I can do.") in
  ret true.

(** [for keywords, handler in table: ...], then the fallback. *)
Fixpoint dispatch_from (table : list (list string * Handler)) (query : string) : M bool :=
  match table with
  | [] => fallback query
  | (keywords, handler) :: rest =>
      if Py.any_in keywords query then
        run* guarded handler query in ret true
      else dispatch_from rest query
  end.

Definition dispatch (query : string) : M bool :=
  if negb (nonempty query) then ret true
  else if Py.any_in EXIT_KEYWORDS query then
    let* user := config_get "user_name" in
    run* speak ("Goodbye, " +:+ py_str user +:+ "! Have a wonderful day.") in
    ret false
  else dispatch_from COMMAND_TABLE query.

(** ** Main loop *)

(** [while True: ...] of [run], for at most [fuel] rounds; [None] when the
    rounds are used up and the loop is still going. *)
Fixpoint main_loop (fuel : nat) (use_voice : bool) (w : World) : option (Res unit * World) :=
  match fuel with
  | O => None
  | S fuel' =>
      match (let* query := (if use_voice then listen "" else take_text_input) in
             dispatch query) w with
      | (Val true, w') => main_loop fuel' use_voice w'
      | (Val false, w') => Some (Val tt, w')
      | (Exc e, w') => Some (Exc e, w')
      end
  end.

Definition run (fuel : nat) (use_voice : bool) (w : World) : option (Res unit * World) :=
  match wish_me w with
  | (Val _, w') => main_loop fuel use_voice w'
  | (Exc e, w') => Some (Exc e, w')
  end.

End Program.

(** ** Vocabulary of the statements *)

(** [kw] occurs as a substring of [s]. *)
Definition occurs_in (kw s : string) : Prop :=
  ∃ before after, s = before +:+ kw +:+ after.

(** Some phrase of the list occurs in the input: how an entry of the table
    matches, and how the exit keywords do. *)
Definition any_occurs (phrases : list string) (q : string) : Prop :=
  ∃ kw, kw ∈ phrases ∧ occurs_in kw q.

(** Every key of the default set is there. *)
Definition defaults_present (cfg : gmap string JVal) : Prop :=
  Forall (fun kv => is_Some (cfg !! kv.1)) DEFAULT_CONFIG.

(** Several events in a row. *)
Definition emit_all (evs : list Event) (w : World) : World :=
  foldl (fun w e => emit e w) w evs.

(** What [listen] hands back for one capture, and what it says itself
    when the capture failed. *)
Definition answer_of (h : Heard) : string :=
  match h with
  | Recognised query => Py.strip (Py.lower query)
  | _ => ""
  end.

Definition retry_of (h : Heard) : list Event :=
  match h with
  | UnknownValue => [Say "Sorry, I didn't catch that. Could you repeat?"]
  | RequestError _ =>
      [Say "I'm having trouble reaching the speech service. Please check your internet."]
  | _ => []
  end.

Definition is_say (e : Event) : Prop := ∃ text, e = Say text.

(** The settings in memory and the three files are as they were. *)
Definition same_stores (w w' : World) : Prop :=
  config w' = config w ∧ config_file w' = config_file w ∧
  notes_file w' = notes_file w ∧ todo_file w' = todo_file w.

(** [w'] comes from [w] by the events [evs] and nothing else but the
    counters of the surroundings. *)
Definition only_emitted (evs : list Event) (w w' : World) : Prop :=
  same_stores w w' ∧ data_dir w' = data_dir w ∧ trace w' = trace w ++ evs.

(** The commands handed to [os.system] among some events. *)
Definition power_commands (evs : list Event) : list string :=
  omap (fun e => match e with OsSystem command => Some command | _ => None end) evs.

(** The payloads the three payload-carrying handlers cut out of the input. *)
Definition note_payload (q : string) : string :=
  Py.strip (Py.re_sub_alts ["write"; "take"; "make"; "a"; "note"; "saying"; "that"] q).

Definition task_payload (q : string) : string :=
  Py.strip (Py.re_sub_alts ["add"; "to do"; "todo"; "task"; "reminder"; "remind me to"] q).

Definition search_payload (q : string) : string :=
  Py.strip (Py.re_sub_alts ["search"; "google"; "for"; "on"] q).

(** Every character of [s] passes [p]. *)
Fixpoint all_chars (p : ascii -> bool) (s : string) : bool :=
  match s with
  | EmptyString => true
  | String c s' => p c && all_chars p s'
  end.

Definition line_break (c : ascii) : bool :=
  bool_decide (c = Py.LF) || bool_decide (c = Py.CR).

(** A note text as the ports deliver it and [cmd_write_note] cuts it:
    not empty, on one line, no white space at its end. *)
Definition note_text (s : string) : Prop :=
  nonempty s = true ∧
  all_chars (fun c => negb (line_break c)) s = true ∧
  Py.rstrip s = s.

(** The records of notes appended one after the other from clock reading
    [tick] on: each text behind its bracketed time stamp. *)
Fixpoint stamped (E : Env) (tick : nat) (notes : list string) : list string :=
  match notes with
  | [] => []
  | note :: rest =>
      (note_timestamp (clock E tick) +:+ " " +:+ note) :: stamped E (S tick) rest
  end.

(** The text of a file that holds the given records, one per line. *)
Fixpoint join_lines (records : list string) : string :=
  match records with
  | [] => ""
  | r :: rest => r +:+ String Py.LF (join_lines rest)
  end.

(** A record that reads back as it was written: on one line, and the
    line stripped is the record again. *)
Definition record_ok (r : string) : Prop :=
  all_chars (fun c => negb (line_break c)) r = true ∧
  Py.strip (r +:+ String Py.LF "") = r.

(** The utterances of [cmd_read_notes] for the records it reads out. *)
Definition read_out (total : nat) (records : list string) : list Event :=
  Say ("You have " +:+ Py.str_nat total +:+ " note(s).")
  :: map (fun '(i, r) => Say ("Note " +:+ Py.str_nat i +:+ ": " +:+ r))
         (enumerate 1 records).

(** ** Sample surroundings *)

Definition sample_time (tick : nat) : DateTime :=
  mkDateTime 2024 3 9 14 (tick mod 60) 7 0.

(** A microphone that delivers the given captures and then stays silent;
    the joke handler is broken, every other external handler just returns. *)
Definition sample_env (captures : list Heard) : Env :=
  mkEnv (fun i => default WaitTimeout (captures !! i))
        (fun _ => "")
        sample_time
        "linux"
        (fun _ => PageMissing)
        (fun h _ => match h with
                    | CmdJoke => raise (OtherException "RuntimeError") "no jokes today"
                    | _ => ret tt
                    end).

Definition fresh_world : World := mkWorld ∅ None None None false 0 0 0 [].

(** The world right after import on a machine without [data/]. *)
Definition started_world : World := (startup fresh_world).2.

Definition with_todos (todos : list Task) : World :=
  set_todo_file (Some todos) started_world.

Definition task_rent : Task := mkTask "pay rent" true "2024-03-01 09:00:00".
Definition task_milk : Task := mkTask "buy milk" false "2024-03-02 09:00:00".
Definition task_mom : Task := mkTask "call mom" false "2024-03-03 09:00:00".
Definition task_dog : Task := mkTask "walk dog" false "2024-03-04 09:00:00".

(** ** Further handlers *)

Definition SITES : list (string * string) :=
  [ ("google", "https://www.google.com");
    ("youtube", "https://www.youtube.com");
    ("github", "https://www.github.com");
    ("gmail", "https://mail.google.com");
    ("maps", "https://maps.google.com");
    ("linkedin", "https://www.linkedin.com");
    ("twitter", "https://www.twitter.com");
    ("reddit", "https://www.reddit.com");
    ("stackoverflow", "https://stackoverflow.com") ].

(** [for site, url in sites.items(): ...] of [cmd_open_site], then the
    question behind the loop. *)
Fixpoint open_site_from (sites : list (string * string)) (query : string) : M unit :=
  match sites with
  | [] => speak "Which website would you like me to open?"
  | (site, url) :: rest =>
      if Py.contains site query then
        run* speak ("Opening " +:+ site +:+ ".") in
        webbrowser_open url
      else open_site_from rest query
  end.

Definition cmd_open_site (query : string) : M unit := open_site_from SITES query.

Definition cmd_search_youtube (E : Env) (query : string) : M unit :=
  let term := Py.strip (Py.re_sub_alts ["youtube"; "search"; "play"; "video"; "for"] query) in
  let* term := (if nonempty term then ret term
                else listen E "What would you like to search on YouTube?") in
  if nonempty term then
    run* speak ("Searching YouTube for: " +:+ term) in
    webbrowser_open ("https://www.youtube.com/results?search_query="
                     +:+ Py.plus_for_blank term)
  else ret tt.

Definition cmd_name (_ : string) : M unit :=
  let* name := config_get "assistant_name" in
  speak ("My name is " +:+ py_str name +:+ ". I'm your personal voice assistant!").

(** The surroundings [E] with the handlers above in the place of the
    ones [E] supplies. *)
Definition with_handlers (E : Env) : Env :=
  mkEnv (mic E) (keyboard E) (clock E) (platform E) (wikipedia_summary E)
        (fun handler =>
           match handler with
           | CmdOpenSite => cmd_open_site
           | CmdSearchYoutube => cmd_search_youtube E
           | CmdName => cmd_name
           | other => external E other
           end).

(** ** Further vocabulary *)

#[global] Instance Handler_eq_dec : EqDecision Handler.
Proof. solve_decision. Defined.

(** The handler of the first entry of the table that matches, as the loop
    of [dispatch] finds it. *)
Fixpoint route (table : list (list string * Handler)) (q : string) : option Handler :=
  match table with
  | [] => None
  | (keywords, handler) :: rest =>
      if Py.any_in keywords q then Some handler else route rest q
  end.

(** The pages opened among some events. *)
Definition opened_urls (evs : list Event) : list string :=
  omap (fun e => match e with OpenUrl url => Some url | _ => None end) evs.

(** The encyclopedia lookups among some events. *)
Definition lookups (evs : list Event) : list string :=
  omap (fun e => match e with WikiLookup topic => Some topic | _ => None end) evs.

(** The description [cmd_add_todo] settles on: what is left of the input,
    or else the answer to its question. *)
Definition task_text (E : Env) (q : string) (w : World) : string :=
  if nonempty (task_payload q) then task_payload q else answer_of (mic E (heard w)).

(** An entry after a step of the program: same description and time of
    creation, and finished if it was. *)
Definition task_kept (t t' : Task) : Prop :=
  task t' = task t ∧ added t' = added t ∧ (done t = true → done t' = true).

Definition tasks_of (w : World) : list Task := default [] (todo_file w).

(** The topic [cmd_wikipedia] cuts out of the input, and the terms the two
    search handlers cut out. *)
Definition wiki_payload (q : string) : string :=
  Py.strip (Py.re_sub_alts
    ["wikipedia"; "wiki"; "who is"; "what is"; "tell me about"; "search"] q).

Definition youtube_payload (q : string) : string :=
  Py.strip (Py.re_sub_alts ["youtube"; "search"; "play"; "video"; "for"] q).

(** What a handler works with: the payload, or else the answer to its one
    question. *)
Definition payload_or_answer (E : Env) (payload : string) (w : World) : string :=
  if nonempty payload then payload else answer_of (mic E (heard w)).

(** A line of the keyboard as [take_text_input] hands it on. *)
Definition typed_line (E : Env) (i : nat) : string :=
  Py.strip (Py.lower (keyboard E i)).

(** What [cmd_wikipedia] emits for the answer of the encyclopedia. *)
Definition reply_events (r : WikiReply) : list Event :=
  match r with
  | Summary summary => [Say summary]
  | Disambiguation options =>
      [Say ("There are multiple results. Did you mean: "
            +:+ String.concat ", " (take 4 options) +:+ "?")]
  | PageMissing => [Say "I couldn't find a Wikipedia page for that topic."]
  | WikiFault detail =>
      [Say "Something went wrong while fetching Wikipedia.";
       Print ("   [WikiError] " +:+ detail)]
  end.

(** The phrases of the table entry of [cmd_open_site]. *)
Definition OPEN_SITE_PHRASES : list string :=
  ["open google"; "open youtube"; "open github";
   "open gmail"; "open maps"; "open reddit";
   "open twitter"; "open linkedin"; "open stackoverflow"].

(** ** Text within the reach of the model *)

(** The text primitives above are Python's on ASCII text: [s] holds no
    character beyond 127. *)
Definition ascii_text (s : string) : Prop :=
  all_chars (fun c => nat_of_ascii c <? 128) s = true.

(** What the recogniser delivered, when it delivered a text. *)
Definition raw_of (h : Heard) : string :=
  match h with
  | Recognised query => query
  | _ => ""
  end.

(** A text fit for one line of the notes file: not empty and without a
    line break. *)
Definition one_line_text (s : string) : Prop :=
  nonempty s = true ∧ all_chars (fun c => negb (line_break c)) s = true.

(** The note texts a run of [cmd_write_note] over the inputs [qs] settles
    on, one per input: what is left of the input, or else the answer to
    the question, which takes one capture of the microphone; [captures]
    counts the captures taken so far. *)
Fixpoint noted (E : Env) (captures : nat) (qs : list string) : list string :=
  match qs with
  | [] => []
  | q :: rest =>
      if nonempty (note_payload q) then note_payload q :: noted E captures rest
      else answer_of (mic E captures) :: noted E (S captures) rest
  end.

(** Six inputs for [cmd_write_note]; the fourth leaves nothing to note and
    has its text asked for. *)
Definition six_inputs : list string :=
  ["note that buy milk"; "note that fix bike"; "write cook rice";
   "take a note"; "note that sell books"; "note that send gift"].
(** * Properties *)

(** ** The text primitives on small inputs *)

Example strip_both_ends : Py.strip "  ab c  " = "ab c".
Proof. reflexivity. Qed.

Example split_runs : Py.split "  ab c  d" = ["ab"; "c"; "d"].
Proof. reflexivity. Qed.

Example title_words : Py.title "hello wOrld 3ab" = "Hello World 3Ab".
Proof. reflexivity. Qed.

Example sub_cuts_every_alternative :
  Py.re_sub_alts ["write"; "take"; "make"; "a"; "note"; "saying"; "that"]
    "note that the cat is out" = "  the ct is out".
Proof. reflexivity. Qed.

Example search_first_digit_run : Py.re_search_digits "task 12 and 3" = Some "12".
Proof. reflexivity. Qed.

Example int_leading_zero : Py.int "012" = 12%Z.
Proof. reflexivity. Qed.

Example index_from_the_end : Py.index_of 3 (-1) = Some 2 ∧ Py.index_of 3 3 = None.
Proof. split; reflexivity. Qed.

Example last_n_short_list : Py.last_n 5 [1; 2; 3] = [1; 2; 3] ∧ Py.last_n 2 [1; 2; 3] = [2; 3].
Proof. split; reflexivity. Qed.

Example readlines_keeps_ends :
  Py.readlines ("ab" +:+ String Py.CR (String Py.LF ("cd" +:+ String Py.LF "e")))
  = ["ab" +:+ String Py.LF ""; "cd" +:+ String Py.LF ""; "e"].
Proof. reflexivity. Qed.

Example yes_inside_a_word : Py.contains "yes" "oh yesterday" = true.
Proof. reflexivity. Qed.

Example timestamp_format :
  note_timestamp (mkDateTime 2024 3 9 14 5 7 0) = "[2024-03-09 14:05]".
Proof. reflexivity. Qed.

(** ** Substring matching *)

Lemma startswith_spec p s : Py.startswith p s = true ↔ ∃ t, s = p +:+ t.
Proof.
  revert s. induction p as [|a p IH]; intros s; simpl.
  - split; eauto.
  - destruct s as [|b s].
    + split; [done | intros [t Ht]; discriminate].
    + destruct (decide (a = b)) as [->|Hne].
      * rewrite IH. split; intros [t Ht]; exists t; congruence.
      * split; [done | intros [t Ht]; congruence].
Qed.

Lemma contains_spec kw s : Py.contains kw s = true ↔ occurs_in kw s.
Proof.
  unfold occurs_in. induction s as [|c s IH].
  - simpl. rewrite orb_false_r, startswith_spec. split.
    + intros [t Ht]. exists "", t. done.
    + intros [[|x a] [b Hb]]; [eauto | discriminate].
  - cbn [Py.contains]. rewrite orb_true_iff, IH, startswith_spec. split.
    + intros [[t Ht] | (a & b & Hab)].
      * exists "", t. done.
      * exists (String c a), b. simpl. by rewrite Hab.
    + intros ([|x a] & b & Hab).
      * left. eauto.
      * right. simpl in Hab. exists a, b. congruence.
Qed.

Lemma any_in_spec kws q : Py.any_in kws q = true ↔ any_occurs kws q.
Proof.
  unfold Py.any_in, any_occurs. rewrite existsb_exists. split.
  - intros (kw & Hin & Hc). exists kw. by rewrite list_elem_of_In, <- contains_spec.
  - intros (kw & Hin & Hc). exists kw. by rewrite <- list_elem_of_In, contains_spec.
Qed.

Lemma any_in_false kws q : Py.any_in kws q = false ↔ ¬ any_occurs kws q.
Proof. rewrite <- any_in_spec. by destruct (Py.any_in kws q). Qed.

Lemma nonempty_true q : q ≠ "" → nonempty q = true.
Proof. by destruct q. Qed.

(** ** The dispatcher *)

Section Dispatcher.

Context (E : Env).

Lemma dispatch_from_first table q before kws h after :
  table = before ++ (kws, h) :: after →
  Forall (fun entry => ¬ any_occurs entry.1 q) before →
  any_occurs kws q →
  dispatch_from E table q = (run* guarded E h q in ret true).
Proof.
  intros -> Hbefore Hm. induction Hbefore as [|[kws' h'] before Hno _ IH]; simpl.
  - apply any_in_spec in Hm. by rewrite Hm.
  - apply any_in_false in Hno. simpl in Hno. by rewrite Hno.
Qed.

Lemma dispatch_from_none table q :
  Forall (fun entry => ¬ any_occurs entry.1 q) table →
  dispatch_from E table q = fallback E q.
Proof.
  induction 1 as [|[kws h] table Hno _ IH]; simpl; [done|].
  apply any_in_false in Hno. simpl in Hno. by rewrite Hno.
Qed.

Lemma dispatch_intents q :
  q ≠ "" → ¬ any_occurs EXIT_KEYWORDS q →
  dispatch E q = dispatch_from E COMMAND_TABLE q.
Proof.
  intros Hq Hexit. unfold dispatch.
  by rewrite (nonempty_true q Hq), (proj2 (any_in_false _ _) Hexit).
Qed.

Lemma dispatch_runs_first q before keywords handler after :
  q ≠ "" → ¬ any_occurs EXIT_KEYWORDS q →
  COMMAND_TABLE = before ++ (keywords, handler) :: after →
  Forall (fun entry => ¬ any_occurs entry.1 q) before →
  any_occurs keywords q →
  dispatch E q = (run* guarded E handler q in ret true).
Proof.
  intros Hq Hexit Htab Hbefore Hm. rewrite dispatch_intents by done.
  by apply (dispatch_from_first _ q before keywords handler after).
Qed.

Lemma dispatch_falls_back q :
  q ≠ "" → ¬ any_occurs EXIT_KEYWORDS q →
  Forall (fun entry => ¬ any_occurs entry.1 q) COMMAND_TABLE →
  dispatch E q = fallback E q.
Proof.
  intros Hq Hexit Hnone. rewrite dispatch_intents by done.
  by apply dispatch_from_none.
Qed.

Lemma guarded_total h q w : ∃ w', guarded E h q w = (Val tt, w').
Proof.
  unfold guarded, try_except_Exception.
  destruct (call E h q w) as [[[]|e] w']; eauto.
Qed.

End Dispatcher.

Section Ports.

Context (E : Env).

Lemma emit_all_app evs1 evs2 w :
  emit_all (evs1 ++ evs2) w = emit_all evs2 (emit_all evs1 w).
Proof. apply foldl_app. Qed.

Lemma trace_emit_all evs w : trace (emit_all evs w) = trace w ++ evs.
Proof.
  revert w. induction evs as [|e evs IH]; intros w; simpl.
  - by rewrite app_nil_r.
  - rewrite IH. simpl. by rewrite <- app_assoc.
Qed.

Lemma listen_eq prompt w :
  listen E prompt w =
  (Val (answer_of (mic E (heard w))),
   emit_all (retry_of (mic E (heard w)))
     (next_heard (emit_all (if nonempty prompt then [Say prompt] else []) w))).
Proof.
  unfold listen, bind. destruct (nonempty prompt); simpl;
    destruct (mic E (heard w)); reflexivity.
Qed.

Lemma cmd_wikipedia_returns q w : ∃ w', cmd_wikipedia E q w = (Val tt, w').
Proof.
  unfold cmd_wikipedia, bind.
  destruct (nonempty (Py.strip (Py.re_sub_alts _ q))) eqn:Ht.
  - simpl. rewrite Ht. simpl.
    destruct (wikipedia_summary E _); simpl; eauto.
  - rewrite listen_eq.
    destruct (nonempty (answer_of _)); simpl; [|eauto].
    destruct (wikipedia_summary E _); simpl; eauto.
Qed.

End Ports.

Section DispatcherClaims.

Context (E : Env).

Lemma fallback_returns q w : ∃ w', fallback E q w = (Val true, w').
Proof.
  unfold fallback, bind. destruct (3 <=? length (Py.split q)); simpl; [|eauto].
  destruct (cmd_wikipedia_returns E q
              (emit (Say "I'm not sure about that, but let me check Wikipedia.") w))
    as [w' ->]. eauto.
Qed.

Lemma dispatch_from_returns table q w :
  ∃ w', dispatch_from E table q w = (Val true, w').
Proof.
  induction table as [|[kws h] table IH]; simpl.
  - apply fallback_returns.
  - destruct (Py.any_in kws q); [|done].
    unfold bind. destruct (guarded_total E h q w) as [w' ->]. eauto.
Qed.

(** Every way [dispatch] can come out: it says "go on", or the input held
    an exit keyword and it says "stop" (or fails while saying goodbye). *)
Lemma dispatch_outcomes q w r w' :
  dispatch E q w = (r, w') →
  r = Val true ∨
  (q ≠ "" ∧ any_occurs EXIT_KEYWORDS q ∧ (r = Val false ∨ ∃ e, r = Exc e)).
Proof.
  unfold dispatch. destruct (nonempty q) eqn:Hne; cbn [negb].
  2:{ intros [= <- <-]. by left. }
  assert (q ≠ "") as Hq by (by destruct q).
  destruct (Py.any_in EXIT_KEYWORDS q) eqn:Hexit.
  - apply any_in_spec in Hexit. intros H. right. split; [done|]. split; [done|].
    unfold bind, config_get, speak, modify, ret in H.
    destruct (config w !! "user_name"); injection H as <- <-; eauto.
  - intros H. left.
    destruct (dispatch_from_returns COMMAND_TABLE q w) as [w1 Hw1].
    congruence.
Qed.

(** C3. An input that is not empty and holds an exit keyword makes
    [dispatch] say goodbye and return [False]; nothing else happens to the
    world, whatever the input matches in the routing table and whatever the
    handlers would do.  The goodbye names the user, so the [user_name]
    setting is read: it is there by the invariant of the configuration. *)
Theorem exit_keyword_wins q w :
  q ≠ "" →
  any_occurs EXIT_KEYWORDS q →
  defaults_present (config w) →
  ∃ user,
    config w !! "user_name" = Some user ∧
    dispatch E q w =
      (Val false, emit (Say ("Goodbye, " +:+ py_str user +:+ "! Have a wonderful day.")) w).
Proof.
  intros Hq Hexit Hcfg.
  assert (is_Some (config w !! "user_name")) as [user Huser].
  { unfold defaults_present in Hcfg. rewrite Forall_forall in Hcfg.
    apply (Hcfg ("user_name", JStr "User")). by repeat constructor. }
  exists user. split; [done|].
  unfold dispatch. rewrite (nonempty_true q Hq), (proj2 (any_in_spec _ _) Hexit).
  unfold bind, config_get. cbn [negb]. cbv beta. by rewrite Huser.
Qed.

(** C7. For an input that is not empty and holds no exit keyword the
    table is gone through in its order, an entry matching exactly when one
    of its phrases occurs in the input.  The handler of the first matching
    entry is called with the input, and [dispatch] comes out as that call
    did: with the world the handler left when it returned, with the
    apology and the diagnostic line on top of it when it raised; no other
    entry has any part in the result.  When no entry matches no handler of
    the table is called: the announcement and [cmd_wikipedia] on the whole
    input for three tokens or more, the one utterance for fewer. *)
Theorem first_matching_entry_runs q :
  q ≠ "" →
  ¬ any_occurs EXIT_KEYWORDS q →
  (∀ keywords, Py.any_in keywords q = true ↔ any_occurs keywords q) ∧
  (∀ before keywords handler after w,
     COMMAND_TABLE = before ++ (keywords, handler) :: after →
     Forall (fun entry => ¬ any_occurs entry.1 q) before →
     any_occurs keywords q →
     dispatch E q w =
       match call E handler q w with
       | (Val _, w') => (Val true, w')
       | (Exc e, w') =>
           (Val true,
            emit (Print ("   [Error] " +:+ exn_text e))
              (emit (Say "Sorry, something went wrong with that command.") w'))
       end) ∧
  (∀ w,
     Forall (fun entry => ¬ any_occurs entry.1 q) COMMAND_TABLE →
     dispatch E q w =
       (Val true,
        if 3 <=? length (Py.split q) then
          (cmd_wikipedia E q
             (emit (Say "I'm not sure about that, but let me check Wikipedia.") w)).2
        else
          emit (Say "I didn't understand that command. Try saying 'help' to see what I can do.")
               w)).
Proof.
  intros Hq Hexit. split; [|split].
  - intros kws. apply any_in_spec.
  - intros before kws h after w Htab Hbefore Hm.
    rewrite (dispatch_runs_first E q before kws h after) by done.
    unfold bind, guarded, try_except_Exception.
    by destruct (call E h q w) as [[[]|e] w'].
  - intros w Hnone. rewrite dispatch_falls_back by done.
    unfold fallback, bind. destruct (3 <=? length (Py.split q)); [|done].
    cbn [speak modify]. unfold speak, modify.
    destruct (cmd_wikipedia_returns E q
                (emit (Say "I'm not sure about that, but let me check Wikipedia.") w))
      as [w' Hw']. by rewrite Hw'.
Qed.

(** C5. When the input is routed to a handler, whatever the handler does
    comes back as "go on": a handler that returns leaves the world as it
    made it, a handler that raises has the apology spoken and the
    diagnostic line printed on top of what it had done.  And the main loop
    ends in no other way than on an input that holds an exit keyword. *)
Theorem handler_faults_stay_inside q before keywords handler after :
  q ≠ "" →
  ¬ any_occurs EXIT_KEYWORDS q →
  COMMAND_TABLE = before ++ (keywords, handler) :: after →
  Forall (fun entry => ¬ any_occurs entry.1 q) before →
  any_occurs keywords q →
  (∀ w w', call E handler q w = (Val tt, w') → dispatch E q w = (Val true, w')) ∧
  (∀ w w' e,
     call E handler q w = (Exc e, w') →
     dispatch E q w =
       (Val true,
        emit_all [Say "Sorry, something went wrong with that command.";
                  Print ("   [Error] " +:+ exn_text e)] w')) ∧
  (∀ fuel use_voice w r w',
     main_loop E fuel use_voice w = Some (r, w') →
     ∃ q' w1,
       q' ≠ "" ∧ any_occurs EXIT_KEYWORDS q' ∧
       ((r = Val tt ∧ dispatch E q' w1 = (Val false, w')) ∨
        (∃ e', r = Exc e' ∧ dispatch E q' w1 = (Exc e', w')))).
Proof.
  intros Hq Hexit Htab Hbefore Hm.
  pose proof (dispatch_runs_first E q before keywords handler after
                Hq Hexit Htab Hbefore Hm) as Hfirst.
  split; [|split].
  - intros w w' Hcall. rewrite Hfirst.
    unfold bind, guarded, try_except_Exception. by rewrite Hcall.
  - intros w w' e Hcall. rewrite Hfirst.
    unfold bind, guarded, try_except_Exception. by rewrite Hcall.
  - clear. induction fuel as [|fuel IH]; intros use_voice w r w'; simpl; [done|].
    unfold bind at 1.
    destruct ((if use_voice then listen E "" else take_text_input E) w)
      as [[q'|e] w1] eqn:Hin.
    2:{ destruct use_voice.
        - rewrite listen_eq in Hin. discriminate.
        - discriminate. }
    destruct (dispatch E q' w1) as [[[]|e] w2] eqn:Hd.
    + apply IH.
    + intros [= <- <-].
      destruct (dispatch_outcomes _ _ _ _ Hd) as [|(? & ? & _)]; [done|].
      exists q', w1. eauto.
    + intros [= <- <-].
      destruct (dispatch_outcomes _ _ _ _ Hd) as [|(? & ? & _)]; [done|].
      exists q', w1. eauto 10.
Qed.

(** C4. An input that is not empty, holds no exit keyword and matches no
    entry of the table: with three tokens or more [dispatch] announces the
    lookup and calls [cmd_wikipedia] with the whole input, which returns;
    with fewer it only says that it did not understand, and no lookup is
    made.  Either way it returns [True]. *)
Theorem fallback_by_token_count q w :
  q ≠ "" →
  ¬ any_occurs EXIT_KEYWORDS q →
  Forall (fun entry => ¬ any_occurs entry.1 q) COMMAND_TABLE →
  (3 ≤ length (Py.split q) →
     ∃ w',
       cmd_wikipedia E q
         (emit (Say "I'm not sure about that, but let me check Wikipedia.") w)
         = (Val tt, w') ∧
       dispatch E q w = (Val true, w')) ∧
  (length (Py.split q) < 3 →
     dispatch E q w =
       (Val true,
        emit (Say "I didn't understand that command. Try saying 'help' to see what I can do.") w)).
Proof.
  intros Hq Hexit Hnone.
  rewrite (dispatch_falls_back E q Hq Hexit Hnone). unfold fallback, bind. split.
  - intros Hlen. apply Nat.leb_le in Hlen. rewrite Hlen.
    destruct (cmd_wikipedia_returns E q
                (emit (Say "I'm not sure about that, but let me check Wikipedia.") w))
      as [w' Hw']. exists w'. simpl. by rewrite Hw'.
  - intros Hlen. apply Nat.leb_gt in Hlen. by rewrite Hlen.
Qed.

End DispatcherClaims.

(** ** Configuration *)

Lemma emit_all_fields evs w :
  config (emit_all evs w) = config w ∧
  config_file (emit_all evs w) = config_file w ∧
  notes_file (emit_all evs w) = notes_file w ∧
  todo_file (emit_all evs w) = todo_file w ∧
  data_dir (emit_all evs w) = data_dir w ∧
  heard (emit_all evs w) = heard w ∧
  ticks (emit_all evs w) = ticks w.
Proof.
  revert w. induction evs as [|e evs IH]; intros w; simpl; [done|].
  destruct (IH (emit e w)) as (-> & -> & -> & -> & -> & -> & ->). done.
Qed.

Lemma fill_defaults_lookup defaults (cfg : gmap string JVal) k :
  fill_defaults defaults cfg !! k =
  match cfg !! k with
  | Some v => Some v
  | None => (list_to_map defaults : gmap string JVal) !! k
  end.
Proof.
  revert cfg. induction defaults as [|[k0 v0] defaults IH]; intros cfg.
  - simpl. rewrite lookup_empty. by destruct (cfg !! k).
  - change (fill_defaults ((k0, v0) :: defaults) cfg)
      with (fill_defaults defaults (setdefault k0 v0 cfg)).
    rewrite IH. unfold setdefault. simpl.
    destruct (decide (k0 = k)) as [->|Hne].
    + rewrite lookup_insert_eq. destruct (cfg !! k) eqn:Hk.
      * by rewrite Hk.
      * by rewrite lookup_insert_eq.
    + rewrite (lookup_insert_ne _ k0 k) by done.
      destruct (cfg !! k0); [done|]. by rewrite lookup_insert_ne.
Qed.

Lemma defaults_present_filled cfg : defaults_present (fill_defaults DEFAULT_CONFIG cfg).
Proof.
  unfold defaults_present. apply Forall_forall. intros [k v] Hin.
  rewrite fill_defaults_lookup. simpl. destruct (cfg !! k); [done|].
  apply list_elem_of_In in Hin. simpl in Hin.
  repeat (destruct Hin as [[= <- <-]|Hin]; [eexists; vm_compute; reflexivity|]). done.
Qed.

Lemma defaults_present_insert k v cfg :
  defaults_present cfg → defaults_present (<[k := v]> cfg).
Proof.
  unfold defaults_present. intros H. eapply Forall_impl; [exact H|].
  clear H. intros [k' v'] Hk'. simpl in *.
  destruct (decide (k = k')) as [->|Hne].
  - rewrite lookup_insert_eq. done.
  - by rewrite lookup_insert_ne.
Qed.

Section Settings.

Context (E : Env).

Lemma cmd_change_assistant_name_eq q w :
  let w1 := (listen E "What would you like to call me?" w).2 in
  let new_name := answer_of (mic E (heard w)) in
  let cfg := <["assistant_name" := JStr (Py.title new_name)]> (config w) in
  cmd_change_assistant_name E q w =
  (Val tt,
   if nonempty new_name then
     emit (Say ("Okay! You can now call me " +:+ Py.title new_name +:+ "."))
          (set_config_file (Some cfg) (set_config cfg w1))
   else w1).
Proof.
  intros w1 new_name cfg. subst w1. unfold cmd_change_assistant_name, bind.
  rewrite listen_eq. fold new_name. cbn [snd nonempty].
  destruct (nonempty new_name); [|done].
  unfold config_get, dump_config, modify, speak. cbn [config set_config set_config_file].
  destruct (emit_all_fields (retry_of (mic E (heard w)))
    (next_heard (emit_all [Say "What would you like to call me?"] w)))
    as (Hc & _). rewrite Hc. cbn [config next_heard emit_all foldl emit].
  fold cfg. unfold cfg at 1. rewrite lookup_insert_eq. done.
Qed.

Lemma cmd_change_user_name_eq q w :
  let w1 := (listen E "What's your name?" w).2 in
  let new_name := answer_of (mic E (heard w)) in
  let cfg := <["user_name" := JStr (Py.title new_name)]> (config w) in
  cmd_change_user_name E q w =
  (Val tt,
   if nonempty new_name then
     emit (Say ("Got it! I'll call you " +:+ Py.title new_name +:+ " from now on."))
          (set_config_file (Some cfg) (set_config cfg w1))
   else w1).
Proof.
  intros w1 new_name cfg. subst w1. unfold cmd_change_user_name, bind.
  rewrite listen_eq. fold new_name. cbn [snd nonempty].
  destruct (nonempty new_name); [|done].
  unfold config_get, dump_config, modify, speak. cbn [config set_config set_config_file].
  destruct (emit_all_fields (retry_of (mic E (heard w)))
    (next_heard (emit_all [Say "What's your name?"] w)))
    as (Hc & _). rewrite Hc. cbn [config next_heard emit_all foldl emit].
  fold cfg. unfold cfg at 1. rewrite lookup_insert_eq. done.
Qed.

End Settings.

(** C6. Loading a stored document gives a configuration that has every
    default key, keeps every stored value and takes the default for a key
    the document lacks, and leaves the file as it is; with no stored
    document the defaults are written and returned; and the two settings
    handlers keep every default key present, in [CONFIG] and in the file
    they write. *)
Theorem config_keeps_default_keys :
  (∀ w doc,
     config_file w = Some doc →
     ∃ cfg,
       load_config w = (Val cfg, make_data_dir w) ∧
       defaults_present cfg ∧
       (∀ k v, doc !! k = Some v → cfg !! k = Some v) ∧
       (∀ k, doc !! k = None →
             cfg !! k = (list_to_map DEFAULT_CONFIG : gmap string JVal) !! k)) ∧
  (∀ w,
     config_file w = None →
     load_config w =
       (Val (list_to_map DEFAULT_CONFIG),
        set_config_file (Some (list_to_map DEFAULT_CONFIG)) (make_data_dir w)) ∧
     defaults_present (list_to_map DEFAULT_CONFIG)) ∧
  (∀ E q w handler,
     handler = cmd_change_assistant_name ∨ handler = cmd_change_user_name →
     defaults_present (config w) →
     ∃ w',
       handler E q w = (Val tt, w') ∧
       defaults_present (config w') ∧
       (config_file w' = config_file w ∨ config_file w' = Some (config w'))).
Proof.
  split; [|split].
  - intros w doc Hdoc. exists (fill_defaults DEFAULT_CONFIG doc).
    split; [|split; [|split]].
    + unfold load_config, bind, modify, gets. cbn [config_file make_data_dir].
      by rewrite Hdoc.
    + apply defaults_present_filled.
    + intros k v Hk. by rewrite fill_defaults_lookup, Hk.
    + intros k Hk. by rewrite fill_defaults_lookup, Hk.
  - intros w Hnone. split.
    + unfold load_config, bind, modify, gets. cbn [config_file make_data_dir].
      by rewrite Hnone.
    + pose proof (defaults_present_filled ∅) as H.
      unfold defaults_present in *. eapply Forall_impl; [exact H|].
      intros [k v] Hk. cbn [fst] in *.
      by rewrite fill_defaults_lookup, lookup_empty in Hk.
  - intros E q w handler Hh Hcfg.
    assert (∀ prompt, config (listen E prompt w).2 = config w ∧
                      config_file (listen E prompt w).2 = config_file w) as Hl.
    { intros prompt. rewrite listen_eq. cbn [snd].
      destruct (emit_all_fields (retry_of (mic E (heard w)))
        (next_heard (emit_all (if nonempty prompt then [Say prompt] else []) w)))
        as (-> & -> & _).
      cbn [config config_file next_heard].
      by destruct (emit_all_fields (if nonempty prompt then [Say prompt] else []) w)
        as (-> & -> & _). }
    destruct Hh as [-> | ->].
    + rewrite cmd_change_assistant_name_eq. eexists. split; [done|].
      destruct (nonempty (answer_of (mic E (heard w)))).
      * cbn. split; [|by right]. by apply defaults_present_insert.
      * destruct (Hl "What would you like to call me?") as [-> ->]. auto.
    + rewrite cmd_change_user_name_eq. eexists. split; [done|].
      destruct (nonempty (answer_of (mic E (heard w)))).
      * cbn. split; [|by right]. by apply defaults_present_insert.
      * destruct (Hl "What's your name?") as [-> ->]. auto.
Qed.

(** ** Confirmation and clarification *)

Section FollowUp.

Context (E : Env).

Lemma only_emitted_refl w : only_emitted [] w w.
Proof. unfold only_emitted, same_stores. by rewrite app_nil_r. Qed.

Lemma only_emitted_emit_all evs evs' w w1 :
  only_emitted evs w w1 → only_emitted (evs ++ evs') w (emit_all evs' w1).
Proof.
  intros ((Hc & Hf & Hn & Ht) & Hd & Htr).
  unfold only_emitted, same_stores.
  destruct (emit_all_fields evs' w1) as (-> & -> & -> & -> & -> & _).
  rewrite trace_emit_all, Htr, app_assoc. done.
Qed.

Lemma only_emitted_next_heard evs w w1 :
  only_emitted evs w w1 → only_emitted evs w (next_heard w1).
Proof. done. Qed.

Lemma listen_only_emitted prompt w :
  only_emitted ((if nonempty prompt then [Say prompt] else [])
                ++ retry_of (mic E (heard w)))
               w (listen E prompt w).2.
Proof.
  rewrite listen_eq. cbn [snd].
  apply only_emitted_emit_all, only_emitted_next_heard.
  apply (only_emitted_emit_all [] _ w w), only_emitted_refl.
Qed.

Lemma retry_of_says h : Forall is_say (retry_of h).
Proof. destruct h; repeat constructor; by eexists. Qed.


Lemma power_commands_app evs evs' :
  power_commands (evs ++ evs') = power_commands evs ++ power_commands evs'.
Proof. apply omap_app. Qed.


End FollowUp.

Section Clarification.

Context (E : Env).

Lemma nonempty_false s : s = "" → nonempty s = false.
Proof. by intros ->. Qed.

(** C10. When the payload cut out of the input is empty and the answer
    to the one clarifying question is empty as well, each of the three
    payload-carrying handlers returns having only spoken (the question, and
    what [listen] says on a failed capture): no note is written, no task is
    added, no page is opened, the stores are as before.  [cmd_write_note]
    has made sure of the data directory before it looks at the input. *)
Theorem empty_payload_and_answer_do_nothing q w :
  answer_of (mic E (heard w)) = "" →
  (note_payload q = "" →
     ∃ evs w',
       cmd_write_note E q w = (Val tt, w') ∧
       same_stores w w' ∧ data_dir w' = true ∧
       trace w' = trace w ++ evs ∧ Forall is_say evs) ∧
  (task_payload q = "" →
     ∃ evs w',
       cmd_add_todo E q w = (Val tt, w') ∧
       only_emitted evs w w' ∧ Forall is_say evs) ∧
  (search_payload q = "" →
     ∃ evs w',
       cmd_search_google E q w = (Val tt, w') ∧
       only_emitted evs w w' ∧ Forall is_say evs).
Proof.
  intros Hans. split; [|split]; intros Hpay.
  - pose proof (listen_only_emitted E "What would you like to note down?"
                  (make_data_dir w)) as Hl.
    unfold cmd_write_note, bind, modify. fold (note_payload q). rewrite Hpay.
    cbn [nonempty]. rewrite listen_eq in *. cbn [heard make_data_dir snd] in *.
    rewrite Hans in *. cbn [nonempty] in *.
    eexists _, _. split; [reflexivity|].
    destruct Hl as (Hs & Hd & Htr). split; [exact Hs|]. split; [exact Hd|].
    split; [exact Htr|].
    apply Forall_app_2; [repeat constructor; by eexists | apply retry_of_says].
  - pose proof (listen_only_emitted E "What task would you like to add?" w) as Hl.
    unfold cmd_add_todo, bind. fold (task_payload q). rewrite Hpay.
    cbn [nonempty]. rewrite listen_eq in *. cbn [snd] in *.
    rewrite Hans in *. cbn [nonempty] in *.
    eexists _, _. split; [reflexivity|]. split; [exact Hl|].
    apply Forall_app_2; [repeat constructor; by eexists | apply retry_of_says].
  - pose proof (listen_only_emitted E "What would you like me to search for?" w) as Hl.
    unfold cmd_search_google, bind. fold (search_payload q). rewrite Hpay.
    cbn [nonempty]. rewrite listen_eq in *. cbn [snd] in *.
    rewrite Hans in *. cbn [nonempty] in *.
    eexists _, _. split; [reflexivity|]. split; [exact Hl|].
    apply Forall_app_2; [repeat constructor; by eexists | apply retry_of_says].
Qed.

End Clarification.

(** ** Notes *)

Lemma append_nil_r (s : string) : s +:+ "" = s.
Proof. induction s as [|c s IH]; simpl; congruence. Qed.

Lemma append_assoc (s t u : string) : (s +:+ t) +:+ u = s +:+ t +:+ u.
Proof. induction s as [|c s IH]; simpl; congruence. Qed.

Lemma all_chars_app p s t :
  all_chars p (s +:+ t) = all_chars p s && all_chars p t.
Proof.
  induction s as [|c s IH]; simpl; [done|]. by rewrite IH, andb_assoc.
Qed.

Lemma all_chars_impl (p p' : ascii → bool) s :
  (∀ c, p c = true → p' c = true) → all_chars p s = true → all_chars p' s = true.
Proof.
  intros Hpp'. induction s as [|c s IH]; simpl; [done|].
  rewrite !andb_true_iff. intros [Hc Hs]. auto.
Qed.

Lemma isdigit_no_break c : Py.isdigit c = true → negb (line_break c) = true.
Proof.
  unfold Py.isdigit, line_break. intros H. apply andb_true_iff in H as [H1 H2].
  apply Nat.leb_le in H1. apply negb_true_iff, orb_false_iff.
  split; apply bool_decide_eq_false; intros ->; vm_compute in H1; lia.
Qed.

Lemma string_of_uint_digits d :
  all_chars Py.isdigit (NilEmpty.string_of_uint d) = true.
Proof. induction d; simpl; try done; by rewrite IHd. Qed.

Lemma str_nat_digits n : all_chars Py.isdigit (Py.str_nat n) = true.
Proof.
  unfold Py.str_nat, NilZero.string_of_uint.
  destruct (Nat.to_uint n) eqn:Hd; rewrite <- ?Hd; try done;
    apply string_of_uint_digits.
Qed.

Lemma zeros_digits k : all_chars Py.isdigit (zeros k) = true.
Proof. induction k; simpl; done. Qed.

Lemma zpad_digits width n : all_chars Py.isdigit (zpad width n) = true.
Proof. unfold zpad. by rewrite all_chars_app, zeros_digits, str_nat_digits. Qed.

Lemma zpad_one_line width n :
  all_chars (fun c => negb (line_break c)) (zpad width n) = true.
Proof. eapply all_chars_impl; [apply isdigit_no_break | apply zpad_digits]. Qed.

Lemma note_timestamp_one_line t :
  all_chars (fun c => negb (line_break c)) (note_timestamp t) = true.
Proof.
  unfold note_timestamp. rewrite !all_chars_app, !zpad_one_line. reflexivity.
Qed.

Lemma no_break_not_LF c : negb (line_break c) = true → c ≠ Py.LF.
Proof.
  unfold line_break. intros H ->. by vm_compute in H.
Qed.

Lemma no_break_not_CR c : negb (line_break c) = true → c ≠ Py.CR.
Proof.
  unfold line_break. intros H ->. by vm_compute in H.
Qed.

Lemma universal_newlines_no_CR s :
  all_chars (fun c => negb (bool_decide (c = Py.CR))) s = true →
  Py.universal_newlines s = s.
Proof.
  induction s as [|c s IH]; simpl; [done|].
  rewrite andb_true_iff, negb_true_iff, bool_decide_eq_false. intros [Hc Hs].
  destruct (decide (c = Py.CR)); [done|]. by rewrite IH.
Qed.

Lemma join_lines_no_CR records :
  Forall record_ok records →
  all_chars (fun c => negb (bool_decide (c = Py.CR))) (join_lines records) = true.
Proof.
  induction 1 as [|r records [Hr _] _ IH]; simpl; [done|].
  rewrite all_chars_app. simpl. rewrite IH, andb_true_r.
  eapply all_chars_impl; [|exact Hr]. intros c Hc. simpl.
  apply negb_true_iff, bool_decide_eq_false. by apply no_break_not_CR.
Qed.

Lemma lines_of_line body rest :
  all_chars (fun c => negb (line_break c)) body = true →
  Py.lines_of (body +:+ String Py.LF rest)
  = (body +:+ String Py.LF "") :: Py.lines_of rest.
Proof.
  induction body as [|c body IH]; simpl.
  - intros _. by destruct (decide (Py.LF = Py.LF)).
  - rewrite andb_true_iff. intros [Hc Hbody].
    destruct (decide (c = Py.LF)) as [->|_]; [by vm_compute in Hc|].
    by rewrite IH.
Qed.

Lemma readlines_join records :
  Forall record_ok records →
  Py.readlines (join_lines records) = map (fun r => r +:+ String Py.LF "") records.
Proof.
  intros Hok. unfold Py.readlines.
  rewrite universal_newlines_no_CR by by apply join_lines_no_CR.
  induction Hok as [|r records [Hr _] _ IH]; simpl; [done|].
  by rewrite lines_of_line, IH.
Qed.

Lemma rstrip_app_LF s : Py.rstrip (s +:+ String Py.LF "") = Py.rstrip s.
Proof. induction s as [|c s IH]; simpl; [done|]. by rewrite IH. Qed.

Lemma rstrip_app_kept s t :
  nonempty t = true → Py.rstrip t = t → Py.rstrip (s +:+ t) = s +:+ t.
Proof.
  intros Hne Ht. induction s as [|c s IH]; simpl; [done|].
  rewrite IH. destruct (s +:+ t) eqn:Hst; [|done].
  destruct s; simpl in Hst; [|done]. subst t. done.
Qed.

Lemma stamped_record_ok E tick note :
  note_text note →
  record_ok (note_timestamp (clock E tick) +:+ " " +:+ note).
Proof.
  intros (Hne & Hline & Hstrip). split.
  - by rewrite !all_chars_app, note_timestamp_one_line, Hline.
  - unfold Py.strip.
    assert (∀ t, Py.lstrip (note_timestamp (clock E tick) +:+ t)
                 = note_timestamp (clock E tick) +:+ t) as Hl by done.
    rewrite append_assoc, Hl, <- !append_assoc, rstrip_app_LF.
    by apply rstrip_app_kept.
Qed.

Lemma stamped_all_ok E tick notes :
  Forall note_text notes → Forall record_ok (stamped E tick notes).
Proof.
  intros H. revert tick. induction H as [|note notes Hn _ IH]; intros tick; simpl.
  - constructor.
  - constructor; [by apply stamped_record_ok | apply IH].
Qed.

Lemma stamped_length E tick notes : length (stamped E tick notes) = length notes.
Proof. revert tick. induction notes as [|n notes IH]; intros tick; simpl; auto. Qed.

Lemma stamped_drop E tick notes k :
  drop k (stamped E tick notes) = stamped E (tick + k) (drop k notes).
Proof.
  revert tick notes. induction k as [|k IH]; intros tick notes.
  - by rewrite Nat.add_0_r.
  - destruct notes as [|n notes]; simpl; [done|].
    rewrite IH. f_equal. lia.
Qed.

Lemma last_n_map {A B} (g : A → B) n (l : list A) :
  Py.last_n n (map g l) = map g (Py.last_n n l).
Proof.
  destruct n; simpl; [done|]. by rewrite List.length_map, List.skipn_map.
Qed.

Lemma last_n_stamped E tick notes n :
  Py.last_n n (stamped E tick notes)
  = stamped E (tick + (match n with O => 0 | S _ => length notes - n end))
            (Py.last_n n notes).
Proof.
  destruct n; simpl.
  - by rewrite Nat.add_0_r.
  - by rewrite stamped_length, stamped_drop.
Qed.

Lemma Forall_last_n {A} (P : A → Prop) n l : Forall P l → Forall P (Py.last_n n l).
Proof. destruct n; simpl; [done|]. apply Forall_drop. Qed.

Lemma strip_written_lines records :
  Forall record_ok records →
  map Py.strip (map (fun r => r +:+ String Py.LF "") records) = records.
Proof.
  induction 1 as [|r records [_ Hr] _ IH]; simpl; [done|]. by rewrite Hr, IH.
Qed.

Lemma read_out_written start records :
  Forall record_ok records →
  map (fun '(i, note) => Say ("Note " +:+ Py.str_nat i +:+ ": " +:+ Py.strip note))
      (enumerate start (map (fun r => r +:+ String Py.LF "") records))
  = map (fun '(i, r) => Say ("Note " +:+ Py.str_nat i +:+ ": " +:+ r))
        (enumerate start records).
Proof.
  intros H. revert start.
  induction H as [|r records [_ Hr] _ IH]; intros start; simpl; [done|].
  by rewrite Hr, IH.
Qed.

Lemma for_each_speak {A} (f : A → string) (body : A → M unit) xs w :
  (∀ x, body x = speak (f x)) →
  for_each body xs w = (Val tt, emit_all (map (fun x => Say (f x)) xs) w).
Proof.
  intros Hbody. revert w. induction xs as [|x xs IH]; intros w; simpl; [done|].
  unfold bind. rewrite Hbody. unfold speak, modify. apply IH.
Qed.

Lemma cmd_read_notes_empty w :
  notes_file w = None ∨ notes_file w = Some "" →
  cmd_read_notes "" w = (Val tt, emit (Say "You have no notes saved.") w).
Proof.
  unfold cmd_read_notes, bind, gets. by intros [-> | ->].
Qed.

Lemma cmd_read_notes_text c text w :
  notes_file w = Some (String c text) →
  cmd_read_notes "" w =
    (Val tt,
     emit_all
       (Say ("You have " +:+ Py.str_nat (length (Py.readlines (String c text)))
             +:+ " note(s).")
        :: map (fun '(i, note) =>
                  Say ("Note " +:+ Py.str_nat i +:+ ": " +:+ Py.strip note))
               (enumerate 1 (Py.last_n 5 (Py.readlines (String c text)))))
       w).
Proof.
  intros Hfile. unfold cmd_read_notes, bind, gets. rewrite Hfile.
  unfold speak at 1. unfold modify.
  erewrite (for_each_speak
    (fun x => "Note " +:+ Py.str_nat x.1 +:+ ": " +:+ Py.strip x.2)).
  - cbn [emit_all foldl]. f_equal. unfold emit_all. f_equal.
    apply map_ext. by intros [i note].
  - by intros [i note].
Qed.

Lemma join_step old r rest :
  (old +:+ r +:+ String Py.LF "") +:+ join_lines rest = old +:+ join_lines (r :: rest).
Proof. cbn [join_lines]. by rewrite !append_assoc. Qed.

Section Notes.

Context (E : Env).

Lemma append_note_eq note w :
  append_note E note w =
  (Val tt,
   emit (Say "Note saved!")
     (set_notes_file
        (Some (default "" (notes_file w)
               +:+ (note_timestamp (clock E (ticks w)) +:+ " " +:+ note)
               +:+ String Py.LF ""))
        (next_tick w))).
Proof.
  unfold append_note, bind, now, modify, speak. cbn [notes_file next_tick].
  by rewrite !append_assoc.
Qed.


End Notes.

Lemma rstrip_idem s : Py.rstrip (Py.rstrip s) = Py.rstrip s.
Proof.
  induction s as [|c s IH]; simpl; [done|].
  destruct (Py.rstrip s) as [|d r] eqn:Hr.
  - destruct (Py.isspace c) eqn:Hc; simpl; [done|]. by rewrite Hc.
  - change (Py.rstrip (String c (String d r)))
      with (match Py.rstrip (String d r) with
            | "" => if Py.isspace c then "" else String c ""
            | r' => String c r'
            end).
    by rewrite IH.
Qed.

Section NotesClaim.

Context (E : Env).

(** What [cmd_write_note] does with its input: the payload, or else the
    answer to its question, goes to [append_note] when it is not empty. *)
Lemma cmd_write_note_eq q w :
  cmd_write_note E q w =
  if nonempty (note_payload q) then append_note E (note_payload q) (make_data_dir w)
  else
    let heard_now := listen E "What would you like to note down?" (make_data_dir w) in
    if nonempty (answer_of (mic E (heard w)))
    then append_note E (answer_of (mic E (heard w))) heard_now.2
    else (Val tt, heard_now.2).
Proof.
  unfold cmd_write_note, bind, modify. fold (note_payload q).
  destruct (nonempty (note_payload q)) eqn:Hp.
  - unfold ret. by rewrite Hp.
  - rewrite listen_eq. cbn [heard make_data_dir snd].
    by destruct (nonempty (answer_of (mic E (heard w)))).
Qed.

(** Neither source of a note text leaves white space at its end. *)
Lemma written_note_stripped q h :
  Py.rstrip (note_payload q) = note_payload q ∧
  Py.rstrip (answer_of h) = answer_of h.
Proof.
  split.
  - unfold note_payload, Py.strip. apply rstrip_idem.
  - destruct h; try done. unfold answer_of, Py.strip. apply rstrip_idem.
Qed.

Lemma listen_fields prompt w :
  notes_file (listen E prompt w).2 = notes_file w ∧
  ticks (listen E prompt w).2 = ticks w ∧
  heard (listen E prompt w).2 = S (heard w).
Proof.
  rewrite listen_eq. cbn [snd].
  destruct (emit_all_fields (retry_of (mic E (heard w)))
    (next_heard (emit_all (if nonempty prompt then [Say prompt] else []) w)))
    as (_ & _ & -> & _ & _ & -> & ->).
  cbn [notes_file ticks heard next_heard].
  by destruct (emit_all_fields (if nonempty prompt then [Say prompt] else []) w)
    as (_ & _ & -> & _ & _ & -> & ->).
Qed.

(** One call of [cmd_write_note] that has a text to note. *)
Lemma cmd_write_note_step q w :
  let text := if nonempty (note_payload q) then note_payload q
              else answer_of (mic E (heard w)) in
  nonempty text = true →
  ∃ w1,
    cmd_write_note E q w = (Val tt, w1) ∧
    notes_file w1 =
      Some (default "" (notes_file w)
            +:+ (note_timestamp (clock E (ticks w)) +:+ " " +:+ text)
            +:+ String Py.LF "") ∧
    ticks w1 = S (ticks w) ∧
    heard w1 = (if nonempty (note_payload q) then heard w else S (heard w)).
Proof.
  intros text Htext. subst text. rewrite cmd_write_note_eq.
  destruct (nonempty (note_payload q)) eqn:Hp.
  - rewrite append_note_eq. eexists. split; [reflexivity|]. done.
  - cbv zeta. rewrite Htext, append_note_eq.
    destruct (listen_fields "What would you like to note down?" (make_data_dir w))
      as (Hn & Ht & Hh).
    eexists. split; [reflexivity|].
    cbn [notes_file ticks heard emit set_notes_file next_tick].
    rewrite Hn, Ht, Hh. done.
Qed.

Lemma noted_length captures qs : length (noted E captures qs) = length qs.
Proof.
  revert captures. induction qs as [|q qs IH]; intros captures; simpl; [done|].
  destruct (nonempty (note_payload q)); simpl; by rewrite IH.
Qed.

Lemma noted_stripped captures qs :
  Forall (fun s => Py.rstrip s = s) (noted E captures qs).
Proof.
  revert captures. induction qs as [|q qs IH]; intros captures; simpl; [constructor|].
  destruct (written_note_stripped q (mic E captures)) as [Hp Ha].
  destruct (nonempty (note_payload q)); constructor; auto.
Qed.

(** The notes file after [cmd_write_note] has run on each input in turn. *)
Lemma write_notes_file qs w :
  Forall (fun s => nonempty s = true) (noted E (heard w) qs) →
  ∃ w',
    for_each (cmd_write_note E) qs w = (Val tt, w') ∧
    notes_file w' =
      match qs with
      | [] => notes_file w
      | _ => Some (default "" (notes_file w)
                   +:+ join_lines (stamped E (ticks w) (noted E (heard w) qs)))
      end.
Proof.
  revert w. induction qs as [|q qs IH]; intros w Hne.
  - by exists w.
  - cbn [noted] in Hne. cbn [for_each]. unfold bind.
    assert (nonempty (if nonempty (note_payload q) then note_payload q
                      else answer_of (mic E (heard w))) = true) as Htext.
    { destruct (nonempty (note_payload q)); by apply Forall_cons in Hne as [? _]. }
    destruct (cmd_write_note_step q w Htext) as (w1 & -> & Hfile & Hticks & Hheard).
    destruct (IH w1) as (w' & -> & Hfile').
    { rewrite Hheard. destruct (nonempty (note_payload q));
        by apply Forall_cons in Hne as [_ ?]. }
    exists w'. split; [done|]. rewrite Hfile'. clear Hfile'.
    cbn [noted stamped].
    destruct qs as [|q' qs'].
    + rewrite Hfile. destruct (nonempty (note_payload q)); reflexivity.
    + rewrite Hfile, Hticks, Hheard. cbn [from_option id]. f_equal.
      destruct (nonempty (note_payload q));
        apply (join_step (default "" (notes_file w))).
Qed.

(** What [cmd_read_notes] says on a file of records written one per line. *)
Lemma read_notes_of_records records w :
  records ≠ [] →
  Forall record_ok records →
  notes_file w = Some (join_lines records) →
  cmd_read_notes "" w =
    (Val tt, emit_all (read_out (length records) (Py.last_n 5 records)) w).
Proof.
  intros Hne Hok Hfile.
  assert (∃ c text, join_lines records = String c text) as (c & text & Htext).
  { destruct records as [|r records]; [done|]. cbn [join_lines].
    destruct r; eexists _, _; reflexivity. }
  rewrite Htext in Hfile. rewrite (cmd_read_notes_text c text w Hfile).
  rewrite <- Htext, readlines_join by done.
  by rewrite List.length_map, last_n_map, read_out_written by by apply Forall_last_n.
Qed.

(** C8. The notes are written by [cmd_write_note], and [cmd_read_notes]
    reads a tail of fixed length five.  From an empty notes file, after
    [cmd_write_note] has run on [k] inputs, [k] at least five, each of
    which gave a text to note (not empty and on one line; inputs and
    captures being ASCII text): the file holds the [k] texts in the order
    of the calls, each behind its bracketed time stamp, and
    [cmd_read_notes] says the count [k] and then exactly the last five
    records, numbered, in that order.  With no notes file, or an empty
    one, it says that there are no notes and returns. *)
Theorem written_notes_read_back w0 qs :
  (notes_file w0 = None ∨ notes_file w0 = Some "") →
  Forall ascii_text qs →
  (∀ i, ascii_text (raw_of (mic E i))) →
  Forall one_line_text (noted E (heard w0) qs) →
  5 ≤ length qs →
  (∃ w,
     for_each (cmd_write_note E) qs w0 = (Val tt, w) ∧
     notes_file w = Some (join_lines (stamped E (ticks w0) (noted E (heard w0) qs))) ∧
     cmd_read_notes "" w =
       (Val tt,
        emit_all
          (read_out (length qs)
             (stamped E (ticks w0 + (length qs - 5))
                (Py.last_n 5 (noted E (heard w0) qs))))
          w) ∧
     length (Py.last_n 5 (noted E (heard w0) qs)) = 5) ∧
  (∀ w1,
     notes_file w1 = None ∨ notes_file w1 = Some "" →
     cmd_read_notes "" w1 = (Val tt, emit (Say "You have no notes saved.") w1)).
Proof.
  intros Hempty _ _ Htexts Hlen. split; [|apply cmd_read_notes_empty].
  destruct (write_notes_file qs w0) as (w & Hrun & Hfile).
  { eapply Forall_impl; [exact Htexts|]. by intros s [? _]. }
  assert (Forall note_text (noted E (heard w0) qs)) as Hnotes.
  { pose proof (noted_stripped (heard w0) qs) as Hstripped.
    apply Forall_forall. intros s Hs. rewrite Forall_forall in Htexts, Hstripped.
    destruct (Htexts s Hs) as [? ?]. split; [done|]. split; [done|auto]. }
  pose proof (stamped_all_ok E (ticks w0) _ Hnotes) as Hok.
  assert (notes_file w = Some (join_lines (stamped E (ticks w0) (noted E (heard w0) qs))))
    as Hfile'.
  { rewrite Hfile. destruct qs; [simpl in Hlen; lia|].
    by destruct Hempty as [-> | ->]. }
  exists w. split; [done|]. split; [done|]. split.
  - rewrite (read_notes_of_records (stamped E (ticks w0) (noted E (heard w0) qs)) w);
      [|destruct qs; [simpl in Hlen; lia|];
        cbn [noted]; destruct (nonempty (note_payload s)); done|done|done].
    by rewrite stamped_length, last_n_stamped, !noted_length.
  - unfold Py.last_n. rewrite length_drop, noted_length. lia.
Qed.

End NotesClaim.

(** ** Completing a task *)

Lemma cmd_read_todos_eq q w :
  ∃ evs, cmd_read_todos q w = (Val tt, emit_all evs (make_data_dir w)).
Proof.
  unfold cmd_read_todos, _load_todos. unfold bind, modify, gets, ret.
  cbv beta iota.
  destruct (pending_of (default [] (todo_file (make_data_dir w)))) as [|t pending].
  - by exists [Say "Your to-do list is empty."].
  - unfold speak at 1. unfold modify.
    erewrite (for_each_speak (fun x => Py.str_nat x.1 +:+ ". " +:+ task x.2))
      by by intros [i t'].
    eexists (_ :: _). reflexivity.
Qed.

Lemma getitem_cases {A} (xs : list A) i w :
  (∃ x, getitem xs i w = (Val x, w)) ∨
  getitem xs i w = (Exc (mkExn IndexError "list index out of range"), w).
Proof.
  unfold getitem. destruct (Py.index_of (length xs) i ≫= _); eauto.
Qed.

(** What [cmd_complete_todo] does to the store, whatever it says: when the
    answer holds a number, the entry of the whole list that Python's
    indexing finds for that number less one has its flag set and the list
    is saved. *)
Lemma complete_sets_flag_by_list_position E q w todos digits i :
  todo_file w = Some todos →
  pending_of todos ≠ [] →
  Py.re_search_digits (answer_of (mic E (heard w))) = Some digits →
  Py.index_of (length todos) (Py.int digits - 1) = Some i →
  ∃ w',
    cmd_complete_todo E q w = (Val tt, w') ∧
    todo_file w' = Some (alter finished i todos).
Proof.
  intros Hfile Hpending Hdigits Hindex.
  unfold cmd_complete_todo, bind at 1. unfold _load_todos at 1.
  unfold bind, modify, gets, ret. cbn [todo_file make_data_dir]. rewrite Hfile.
  cbn [from_option id].
  destruct (pending_of todos) as [|t pending] eqn:Hp; [done|].
  destruct (cmd_read_todos_eq "" (make_data_dir w)) as [evs ->].
  rewrite listen_eq.
  destruct (emit_all_fields evs (make_data_dir (make_data_dir w)))
    as (_ & _ & _ & _ & _ & -> & _).
  cbn [heard make_data_dir]. rewrite Hdigits.
  unfold try_except, mark_done, raise, _save_todos, modify. rewrite Hindex.
  unfold ret. cbv beta iota.
  match goal with
  | |- context [getitem ?xs ?n ?w1] =>
      destruct (getitem_cases xs n w1) as [[x ->] | ->]
  end.
  - unfold speak, modify. eexists. split; [reflexivity|]. done.
  - cbn [exn_class]. rewrite bool_decide_eq_true_2 by by repeat constructor.
    unfold speak, modify. eexists. split; [reflexivity|]. done.
Qed.

(** C1. The store holds a finished task in front of the pending tasks
    "buy milk", "call mom", "walk dog", and the user answers 2.  The second
    pending task is "call mom", and that is what [cmd_complete_todo]
    announces; the flag it sets and saves is that of the second entry of
    the whole list, "buy milk", and "call mom" stays pending. *)
Theorem complete_counts_in_whole_list :
  let todos := [task_rent; task_milk; task_mom; task_dog] in
  pending_of todos = [task_milk; task_mom; task_dog] ∧
  ∃ w',
    cmd_complete_todo (sample_env [Recognised "2"]) "complete task" (with_todos todos)
      = (Val tt, w') ∧
    todo_file w' = Some [task_rent; finished task_milk; task_mom; task_dog] ∧
    pending_of [task_rent; finished task_milk; task_mom; task_dog]
      = [task_mom; task_dog] ∧
    last (trace w') = Some (Say "Great job! Marked 'call mom' as done.").
Proof.
  split; [reflexivity|]. eexists. split; [vm_compute; reflexivity|].
  split; [reflexivity|]. split; reflexivity.
Qed.

(** C2. Two numbers outside the pending tasks.  With "buy milk" the one
    task of the store and the answer 0, the index becomes -1, which is the
    last entry: the task is marked, saved and congratulated on.  With a
    finished task in front of "buy milk" and the answer 2, one more than
    the pending count, the second entry of the whole list is marked and
    saved before the lookup among the pending tasks fails, so the
    clarification is spoken over a changed store.  Only a number beyond
    the whole list leaves the store alone. *)
Theorem complete_out_of_range_still_marks :
  (∃ w',
     cmd_complete_todo (sample_env [Recognised "0"]) "complete task"
       (with_todos [task_milk]) = (Val tt, w') ∧
     todo_file w' = Some [finished task_milk] ∧
     last (trace w') = Some (Say "Great job! Marked 'buy milk' as done.")) ∧
  (∃ w',
     cmd_complete_todo (sample_env [Recognised "2"]) "complete task"
       (with_todos [task_rent; task_milk]) = (Val tt, w') ∧
     length (pending_of [task_rent; task_milk]) = 1 ∧
     todo_file w' = Some [task_rent; finished task_milk] ∧
     last (trace w') = Some (Say "I couldn't identify that task number.")) ∧
  (∃ w',
     cmd_complete_todo (sample_env [Recognised "3"]) "complete task"
       (with_todos [task_rent; task_milk]) = (Val tt, w') ∧
     todo_file w' = Some [task_rent; task_milk] ∧
     last (trace w') = Some (Say "I couldn't identify that task number.")).
Proof.
  split; [|split]; eexists; (split; [vm_compute; reflexivity|]); repeat split.
Qed.

(** ** The statements at sample inputs *)

Lemma no_entry_matches table q :
  forallb (fun entry : list string * Handler => negb (Py.any_in entry.1 q)) table = true →
  Forall (fun entry => ¬ any_occurs entry.1 q) table.
Proof.
  rewrite forallb_forall, Forall_forall. intros H entry Hin.
  apply any_in_false, negb_true_iff, H. by apply list_elem_of_In.
Qed.

Lemma started_world_defaults : defaults_present (config started_world).
Proof.
  unfold defaults_present.
  repeat (constructor; [vm_compute; eexists; reflexivity|]). constructor.
Defined.

(** "stop the shutdown" holds the exit keyword "stop" and the phrase
    "shutdown" of the table: [dispatch] says goodbye. *)
Lemma exit_keyword_wins_witness :
  any_occurs ["shut down"; "shutdown"; "power off"] "stop the shutdown" ∧
  ∃ user,
    config started_world !! "user_name" = Some user ∧
    dispatch (sample_env []) "stop the shutdown" started_world =
      (Val false,
       emit (Say ("Goodbye, " +:+ py_str user +:+ "! Have a wonderful day."))
            started_world).
Proof.
  split; [by apply any_in_spec|].
  apply (exit_keyword_wins (sample_env []) "stop the shutdown" started_world).
  - done.
  - by apply any_in_spec.
  - exact started_world_defaults.
Defined.

(** "add task buy milk" is matched first by the entry of [cmd_add_todo],
    the ninth of the table: that handler runs on the input and its store
    is what [dispatch] leaves. *)
Lemma first_matching_entry_runs_witness :
  ∃ w',
    cmd_add_todo (sample_env []) "add task buy milk" started_world = (Val tt, w') ∧
    dispatch (sample_env []) "add task buy milk" started_world = (Val true, w') ∧
    todo_file w' = Some [mkTask "buy milk" false "2024-03-09 14:00:07"].
Proof.
  pose proof (proj1 (proj2 (first_matching_entry_runs (sample_env []) "add task buy milk"
      ltac:(done) ltac:(by apply any_in_false)))
    (take 8 COMMAND_TABLE)
    ["add task"; "add to do"; "remind me"; "add reminder"; "new task"]
    CmdAddTodo (drop 9 COMMAND_TABLE) started_world eq_refl
    ltac:(by apply no_entry_matches) ltac:(by apply any_in_spec)) as Hrun.
  cbn [call] in Hrun.
  destruct (cmd_add_todo (sample_env []) "add task buy milk" started_world)
    as [[[]|e] w'] eqn:Hadd; [|by vm_compute in Hadd].
  exists w'. split; [reflexivity|]. split; [exact Hrun|].
  vm_compute in Hadd. by injection Hadd as <-.
Defined.

(** "tell me a joke" reaches the joke handler, which raises in the sample
    surroundings: the apology and the diagnostic line follow, and the loop
    goes on. *)
Lemma handler_faults_stay_inside_witness :
  dispatch (sample_env []) "tell me a joke" started_world =
    (Val true,
     emit_all [Say "Sorry, something went wrong with that command.";
               Print "   [Error] no jokes today"] started_world).
Proof.
  refine (proj1 (proj2 (handler_faults_stay_inside (sample_env []) "tell me a joke"
    (take 17 COMMAND_TABLE) ["tell me a joke"; "joke"; "make me laugh"] CmdJoke
    (drop 18 COMMAND_TABLE) _ _ _ _ _))
    started_world started_world (mkExn (OtherException "RuntimeError") "no jokes today") _).
  - done.
  - by apply any_in_false.
  - reflexivity.
  - by apply no_entry_matches.
  - by apply any_in_spec.
  - reflexivity.
Defined.

Lemma fallback_by_token_count_witness :
  (3 ≤ length (Py.split "capital of peru") →
     ∃ w',
       cmd_wikipedia (sample_env []) "capital of peru"
         (emit (Say "I'm not sure about that, but let me check Wikipedia.") started_world)
         = (Val tt, w') ∧
       dispatch (sample_env []) "capital of peru" started_world = (Val true, w')) ∧
  (length (Py.split "capital of peru") < 3 →
     dispatch (sample_env []) "capital of peru" started_world =
       (Val true,
        emit (Say "I didn't understand that command. Try saying 'help' to see what I can do.")
             started_world)).
Proof.
  apply (fallback_by_token_count (sample_env []) "capital of peru" started_world).
  - done.
  - by apply any_in_false.
  - by apply no_entry_matches.
Defined.

Lemma config_keeps_default_keys_witness :
  ∃ cfg,
    load_config (set_config_file (Some {["user_name" := JStr "Jo"]}) fresh_world)
      = (Val cfg, make_data_dir (set_config_file (Some {["user_name" := JStr "Jo"]}) fresh_world)) ∧
    defaults_present cfg ∧
    cfg !! "user_name" = Some (JStr "Jo") ∧
    cfg !! "timeout" = Some (JInt 5).
Proof.
  destruct (proj1 config_keeps_default_keys
              (set_config_file (Some {["user_name" := JStr "Jo"]}) fresh_world)
              {["user_name" := JStr "Jo"]} eq_refl)
    as (cfg & Hload & Hpresent & Hkept & Hfilled).
  exists cfg. split; [exact Hload|]. split; [exact Hpresent|]. split.
  - apply Hkept. reflexivity.
  - rewrite Hfilled; reflexivity.
Defined.


Lemma empty_payload_and_answer_do_nothing_witness :
  (∃ evs w',
     cmd_write_note (sample_env []) "write a note" started_world = (Val tt, w') ∧
     same_stores started_world w' ∧ data_dir w' = true ∧
     trace w' = trace started_world ++ evs ∧ Forall is_say evs) ∧
  (∃ evs w',
     cmd_add_todo (sample_env []) "add task" started_world = (Val tt, w') ∧
     only_emitted evs started_world w' ∧ Forall is_say evs) ∧
  (∃ evs w',
     cmd_search_google (sample_env []) "search for" started_world = (Val tt, w') ∧
     only_emitted evs started_world w' ∧ Forall is_say evs).
Proof.
  split; [|split].
  - by apply (empty_payload_and_answer_do_nothing (sample_env []) "write a note"
                started_world).
  - by apply (empty_payload_and_answer_do_nothing (sample_env []) "add task"
                started_world).
  - by apply (empty_payload_and_answer_do_nothing (sample_env []) "search for"
                started_world).
Defined.

Lemma written_notes_read_back_witness :
  ∃ w,
    for_each (cmd_write_note (sample_env [Recognised " Feed Dog "])) six_inputs fresh_world
      = (Val tt, w) ∧
    cmd_read_notes "" w =
      (Val tt,
       emit_all
         [Say "You have 6 note(s).";
          Say "Note 1: [2024-03-09 14:01] fix bike";
          Say "Note 2: [2024-03-09 14:02] cook rice";
          Say "Note 3: [2024-03-09 14:03] feed dog";
          Say "Note 4: [2024-03-09 14:04] sell books";
          Say "Note 5: [2024-03-09 14:05] send gift"] w).
Proof.
  destruct (proj1 (written_notes_read_back (sample_env [Recognised " Feed Dog "])
    fresh_world six_inputs
    (or_introl eq_refl)
    ltac:(repeat constructor)
    ltac:(intros [|[|i]]; reflexivity)
    ltac:(repeat constructor)
    ltac:(simpl; lia))) as (w & Hrun & _ & Hread & _).
  exists w. split; [exact Hrun|]. exact Hread.
Defined.

(** Six notes are written and six are asked for: five are read, the
    first one written is not among them. *)
Lemma six_notes_five_read :
  let E := sample_env [Recognised " Feed Dog "] in
  let w := (for_each (cmd_write_note E) six_inputs fresh_world).2 in
  noted E 0 six_inputs
    = ["buy milk"; "fix bike"; "cook rice"; "feed dog"; "sell books"; "send gift"] ∧
  cmd_read_notes "" w =
    (Val tt,
     emit_all
       [Say "You have 6 note(s).";
        Say "Note 1: [2024-03-09 14:01] fix bike";
        Say "Note 2: [2024-03-09 14:02] cook rice";
        Say "Note 3: [2024-03-09 14:03] feed dog";
        Say "Note 4: [2024-03-09 14:04] sell books";
        Say "Note 5: [2024-03-09 14:05] send gift"] w) ∧
  cmd_read_notes "" w ≠
    (Val tt, emit_all (read_out 6 (stamped E 0 (noted E 0 six_inputs))) w).
Proof.
  cbv zeta. split; [reflexivity|]. split; [vm_compute; reflexivity|].
  intros Heq.
  apply (f_equal (fun r : Res unit * World => length (trace r.2))) in Heq.
  vm_compute in Heq. discriminate.
Qed.

(** ** The scenarios of the specification *)

Example scenario_time :
  dispatch (sample_env []) "what time is it" started_world
  = (run* guarded (sample_env []) CmdTime "what time is it" in ret true) started_world.
Proof. reflexivity. Qed.

Example scenario_add_task :
  ∃ w',
    dispatch (sample_env []) "add task buy milk" started_world = (Val true, w') ∧
    todo_file w' = Some [mkTask "buy milk" false "2024-03-09 14:00:07"] ∧
    last (trace w') = Some (Say "Added to your to-do list: buy milk").
Proof. eexists. split; [vm_compute; reflexivity|]. split; reflexivity. Qed.

Example scenario_no_speech w : dispatch (sample_env []) "" w = (Val true, w).
Proof. reflexivity. Qed.

Example scenario_banana :
  dispatch (sample_env []) "banana" started_world
  = (Val true,
     emit (Say "I didn't understand that command. Try saying 'help' to see what I can do.")
          started_world).
Proof. vm_compute. reflexivity. Qed.

(** * Further properties *)

(** ** Routing *)

Section Routing.

Context (E : Env).

Lemma dispatch_from_route table q :
  dispatch_from E table q =
  match route table q with
  | Some handler => run* guarded E handler q in ret true
  | None => fallback E q
  end.
Proof.
  induction table as [|[kws h] table IH]; simpl; [done|].
  by destruct (Py.any_in kws q).
Qed.

Lemma occurs_in_inner kw left right q :
  occurs_in (left +:+ kw +:+ right) q → occurs_in kw q.
Proof.
  intros (a & b & ->). exists (a +:+ left), (right +:+ b).
  by rewrite !append_assoc.
Qed.

Lemma dispatch_route q :
  q ≠ "" → ¬ any_occurs EXIT_KEYWORDS q →
  dispatch E q =
  match route COMMAND_TABLE q with
  | Some handler => run* guarded E handler q in ret true
  | None => fallback E q
  end.
Proof.
  intros Hq Hexit. rewrite dispatch_intents by done. apply dispatch_from_route.
Qed.

Lemma route_rename_inv q :
  route COMMAND_TABLE q = Some CmdChangeAssistantName →
  Py.any_in ["your name"; "who are you"; "what are you called"] q = false ∧
  Py.any_in ["change your name"; "rename yourself"] q = true.
Proof.
  unfold COMMAND_TABLE. cbn [route].
  repeat match goal with
         | |- context [if Py.any_in ?k q then _ else _] =>
             destruct (Py.any_in k q) eqn:?; try discriminate
         end.
  all: done.
Qed.

(** X1. The phrase "change your name" never reaches the handler that
    renames the assistant: an input that holds it also holds "your name",
    the phrase of an earlier entry, so an earlier handler runs.  The
    renaming handler is reached only through "rename yourself", by an
    input without "your name". *)
Theorem change_your_name_is_shadowed q :
  q ≠ "" →
  ¬ any_occurs EXIT_KEYWORDS q →
  (occurs_in "change your name" q →
     ∃ handler,
       handler ≠ CmdChangeAssistantName ∧
       route COMMAND_TABLE q = Some handler ∧
       dispatch E q = (run* guarded E handler q in ret true)) ∧
  (route COMMAND_TABLE q = Some CmdChangeAssistantName →
     occurs_in "rename yourself" q ∧ ¬ occurs_in "your name" q).
Proof.
  intros Hq Hexit.
  assert (route COMMAND_TABLE q = Some CmdChangeAssistantName →
          occurs_in "rename yourself" q ∧ ¬ occurs_in "your name" q) as Hinv.
  { intros [Hname Hrename]%route_rename_inv.
    unfold Py.any_in in *. cbn [existsb] in *.
    apply orb_false_iff in Hname as [Hname _].
    rewrite orb_false_r in Hrename. apply orb_true_iff in Hrename.
    assert (¬ occurs_in "your name" q) as Hno.
    { rewrite <- contains_spec. by rewrite Hname. }
    split; [|done]. destruct Hrename as [Hc|Hr]; [|by apply contains_spec].
    apply contains_spec in Hc. destruct Hno.
    by apply (occurs_in_inner "your name" "change " "" q). }
  split; [|done]. intros Hocc.
  assert (occurs_in "your name" q) as Hyour
    by by apply (occurs_in_inner "your name" "change " "" q).
  rewrite dispatch_route by done.
  destruct (route COMMAND_TABLE q) as [handler|] eqn:Hroute.
  - exists handler. split; [|done]. intros ->. by destruct (Hinv eq_refl).
  - exfalso. revert Hroute. unfold COMMAND_TABLE. cbn [route].
    repeat match goal with
           | |- context [if Py.any_in ?k q then _ else _] =>
               destruct (Py.any_in k q) eqn:?; try discriminate
           end.
    assert (Py.any_in ["your name"; "who are you"; "what are you called"] q = true)
      as Hm; [|congruence].
    apply any_in_spec. exists "your name". split; [by repeat constructor|done].
Qed.


End Routing.

Lemma change_your_name_is_shadowed_witness :
  ∃ handler,
    handler ≠ CmdChangeAssistantName ∧
    route COMMAND_TABLE "please change your name" = Some handler ∧
    dispatch (sample_env []) "please change your name"
      = (run* guarded (sample_env []) handler "please change your name" in ret true).
Proof.
  apply (change_your_name_is_shadowed (sample_env []) "please change your name").
  - done.
  - by apply any_in_false.
  - by apply contains_spec.
Defined.


(** ** Settings across loads *)

Lemma fill_defaults_fixed cfg :
  defaults_present cfg → fill_defaults DEFAULT_CONFIG cfg = cfg.
Proof.
  intros Hcfg. apply map_eq. intros k. rewrite fill_defaults_lookup.
  destruct (cfg !! k) eqn:Hk; [done|].
  destruct ((list_to_map DEFAULT_CONFIG : gmap string JVal) !! k) eqn:Hd; [|done].
  apply elem_of_list_to_map_2 in Hd.
  unfold defaults_present in Hcfg. rewrite Forall_forall in Hcfg.
  destruct (Hcfg _ Hd) as [v' Hv']. simpl in Hv'. congruence.
Qed.

Lemma defaults_present_default : defaults_present (list_to_map DEFAULT_CONFIG).
Proof.
  unfold defaults_present.
  repeat (constructor; [vm_compute; eexists; reflexivity|]). constructor.
Qed.

Lemma load_config_eq w :
  load_config w =
  match config_file w with
  | Some doc => (Val (fill_defaults DEFAULT_CONFIG doc), make_data_dir w)
  | None =>
      (Val (list_to_map DEFAULT_CONFIG),
       set_config_file (Some (list_to_map DEFAULT_CONFIG)) (make_data_dir w))
  end.
Proof.
  unfold load_config, bind, modify, gets, ret. cbn [config_file make_data_dir].
  by destruct (config_file w).
Qed.

(** X3. Loading is idempotent.  After one [load_config], a second one
    returns the same configuration and changes nothing; and when the
    configuration returned is written to the file, loading that file gives
    it back unchanged. *)
Theorem load_config_twice w cfg w1 :
  load_config w = (Val cfg, w1) →
  load_config w1 = (Val cfg, w1) ∧
  load_config (set_config_file (Some cfg) w1)
    = (Val cfg, set_config_file (Some cfg) w1).
Proof.
  intros Hload. rewrite load_config_eq in Hload.
  destruct (config_file w) as [doc|] eqn:Hfile.
  - pose proof (fill_defaults_fixed _ (defaults_present_filled doc)) as Hfix.
    remember (fill_defaults DEFAULT_CONFIG doc) as cfg0 eqn:Hcfg0.
    injection Hload as <- <-. rewrite !load_config_eq.
    cbn [config_file make_data_dir set_config_file]. rewrite Hfile, <- Hcfg0, Hfix.
    done.
  - pose proof (fill_defaults_fixed _ defaults_present_default) as Hfix.
    remember (list_to_map DEFAULT_CONFIG : gmap string JVal) as cfg0 eqn:Hcfg0.
    injection Hload as <- <-. rewrite !load_config_eq.
    cbn [config_file make_data_dir set_config_file]. rewrite Hfix. done.
Qed.

Lemma load_config_twice_witness :
  load_config (set_config_file (Some (list_to_map DEFAULT_CONFIG))
                 (make_data_dir fresh_world))
  = (Val (list_to_map DEFAULT_CONFIG),
     set_config_file (Some (list_to_map DEFAULT_CONFIG)) (make_data_dir fresh_world)).
Proof.
  exact (proj1 (load_config_twice fresh_world (list_to_map DEFAULT_CONFIG)
                  (set_config_file (Some (list_to_map DEFAULT_CONFIG))
                     (make_data_dir fresh_world)) eq_refl)).
Defined.

Section SettingsAcrossLoads.

Context (E : Env).

(** X4. A new name outlives a restart.  When the configuration holds the
    default keys and the answer to the question, an ASCII text, is not
    empty, each of the two settings handlers leaves the file equal to
    [CONFIG] with the name in title case under its key, and the import of
    a later run loads exactly that configuration. *)
Theorem rename_survives_restart q w :
  defaults_present (config w) →
  ascii_text (raw_of (mic E (heard w))) →
  nonempty (answer_of (mic E (heard w))) = true →
  let name := JStr (Py.title (answer_of (mic E (heard w)))) in
  (∃ w',
     cmd_change_assistant_name E q w = (Val tt, w') ∧
     config w' = <["assistant_name" := name]> (config w) ∧
     config_file w' = Some (config w') ∧
     ∃ w'', startup w' = (Val tt, w'') ∧ config w'' = config w' ∧
            config_file w'' = config_file w') ∧
  (∃ w',
     cmd_change_user_name E q w = (Val tt, w') ∧
     config w' = <["user_name" := name]> (config w) ∧
     config_file w' = Some (config w') ∧
     ∃ w'', startup w' = (Val tt, w'') ∧ config w'' = config w' ∧
            config_file w'' = config_file w').
Proof.
  intros Hcfg _ Hans name.
  assert (∀ cfg w1, defaults_present cfg → config_file w1 = Some cfg →
          ∃ w'', startup w1 = (Val tt, w'') ∧ config w'' = cfg ∧
                 config_file w'' = Some cfg) as Hstart.
  { intros cfg w1 Hp Hf. unfold startup, bind. rewrite load_config_eq, Hf.
    rewrite (fill_defaults_fixed cfg Hp). unfold modify.
    eexists. split; [reflexivity|]. by cbn. }
  split.
  - rewrite cmd_change_assistant_name_eq, Hans. eexists. split; [reflexivity|].
    split; [done|]. split; [done|].
    lazymatch goal with
    | |- ∃ w'', startup ?w1 = _ ∧ _ =>
        destruct (Hstart (<["assistant_name" := name]> (config w)) w1)
          as (w'' & Hs & Hc & Hf); [by apply defaults_present_insert|done|]
    end.
    exists w''. split; [exact Hs|]. split; [exact Hc|exact Hf].
  - rewrite cmd_change_user_name_eq, Hans. eexists. split; [reflexivity|].
    split; [done|]. split; [done|].
    lazymatch goal with
    | |- ∃ w'', startup ?w1 = _ ∧ _ =>
        destruct (Hstart (<["user_name" := name]> (config w)) w1)
          as (w'' & Hs & Hc & Hf); [by apply defaults_present_insert|done|]
    end.
    exists w''. split; [exact Hs|]. split; [exact Hc|exact Hf].
Qed.

(** X5. A new name is used at once.  On a configuration with the default
    keys, after the user's name was changed to a non-empty ASCII answer
    the goodbye of [dispatch] addresses the new name in title case, and
    after the assistant's name was changed [cmd_name] introduces itself by
    the new one. *)
Theorem rename_is_used_at_once q w :
  defaults_present (config w) →
  ascii_text (raw_of (mic E (heard w))) →
  nonempty (answer_of (mic E (heard w))) = true →
  let name := Py.title (answer_of (mic E (heard w))) in
  (∀ q', q' ≠ "" → any_occurs EXIT_KEYWORDS q' →
     let w' := (cmd_change_user_name E q w).2 in
     dispatch E q' w' =
       (Val false, emit (Say ("Goodbye, " +:+ name +:+ "! Have a wonderful day.")) w')) ∧
  (∀ q',
     let w' := (cmd_change_assistant_name E q w).2 in
     cmd_name q' w' =
       (Val tt,
        emit (Say ("My name is " +:+ name +:+ ". I'm your personal voice assistant!")) w')).
Proof.
  intros _ _ Hans name. split.
  - intros q' Hq' Hexit. rewrite cmd_change_user_name_eq, Hans. cbn [snd].
    unfold dispatch. rewrite (nonempty_true q' Hq'), (proj2 (any_in_spec _ _) Hexit).
    cbn [negb]. unfold bind, config_get. cbv beta.
    cbn [config emit set_config_file set_config]. by rewrite lookup_insert_eq.
  - intros q'. rewrite cmd_change_assistant_name_eq, Hans. cbn [snd].
    unfold cmd_name, bind, config_get. cbv beta.
    cbn [config emit set_config_file set_config]. by rewrite lookup_insert_eq.
Qed.

End SettingsAcrossLoads.

Lemma rename_survives_restart_witness :
  ∃ w',
    cmd_change_user_name (sample_env [Recognised "jo smith"]) "change my name"
      started_world = (Val tt, w') ∧
    config w' = <["user_name" := JStr "Jo Smith"]> (config started_world) ∧
    config_file w' = Some (config w') ∧
    ∃ w'', startup w' = (Val tt, w'') ∧ config w'' = config w' ∧
           config_file w'' = config_file w'.
Proof.
  exact (proj2 (rename_survives_restart (sample_env [Recognised "jo smith"])
                  "change my name" started_world defaults_present_default
                  eq_refl eq_refl)).
Defined.

Lemma rename_is_used_at_once_witness :
  dispatch (sample_env [Recognised "jo smith"]) "bye"
    (cmd_change_user_name (sample_env [Recognised "jo smith"]) "my name is" started_world).2
  = (Val false,
     emit (Say "Goodbye, Jo Smith! Have a wonderful day.")
       (cmd_change_user_name (sample_env [Recognised "jo smith"]) "my name is"
          started_world).2).
Proof.
  apply (proj1 (rename_is_used_at_once (sample_env [Recognised "jo smith"])
                  "my name is" started_world defaults_present_default eq_refl eq_refl)
           "bye").
  - done.
  - by apply any_in_spec.
Defined.

(** ** The to-do list *)

Lemma only_emitted_says evs w :
  only_emitted evs w (emit_all evs w).
Proof. apply (only_emitted_emit_all [] evs w w), only_emitted_refl. Qed.

Lemma pending_of_app todos todos' :
  pending_of (todos ++ todos') = pending_of todos ++ pending_of todos'.
Proof. apply filter_app. Qed.

Lemma alter_finished_kept todos i :
  Forall2 task_kept todos (alter finished i todos).
Proof.
  revert i. induction todos as [|t todos IH]; intros i; [constructor|].
  destruct i as [|i]; simpl; constructor; try done.
  - clear. induction todos; constructor; done.
  - apply IH.
Qed.

Lemma tasks_kept_refl todos : Forall2 task_kept todos todos.
Proof. induction todos; constructor; done. Qed.

Lemma leading_pending todos k :
  k < length todos →
  Forall (fun t => done t = false) (take (S k) todos) →
  pending_of todos !! k = todos !! k ∧
  pending_of (alter finished k todos) = delete k (pending_of todos).
Proof.
  revert todos. induction k as [|k IH]; intros [|t todos] Hlen Hlead;
    simpl in Hlen; try lia.
  - apply Forall_cons in Hlead as [Ht _]. unfold pending_of.
    rewrite filter_cons_True by done. split; [done|]. simpl.
    by rewrite filter_cons_False by done.
  - change (take (S (S k)) (t :: todos)) with (t :: take (S k) todos) in Hlead.
    apply Forall_cons in Hlead as [Ht Hlead].
    destruct (IH todos) as [Hlook Hdel]; [lia|done|].
    unfold pending_of in *.
    change (alter finished (S k) (t :: todos)) with (t :: alter finished k todos).
    rewrite !filter_cons_True by done. split; [exact Hlook|].
    rewrite Hdel. reflexivity.
Qed.

Section Todo.

Context (E : Env).

(** X6. Adding a task appends one pending entry and touches nothing
    else.  When the description found (in the input, or else in the answer
    to the question) is not empty, the saved list is the old list, an
    absent file counting as empty, followed by the new entry, which is
    pending and stamped with the clock; the pending tasks are the old
    pending tasks followed by it; settings and notes stay as they are. *)
Theorem add_todo_appends_one_pending q w :
  nonempty (task_text E q w) = true →
  let entry := mkTask (task_text E q w) false (str_datetime (clock E (ticks w))) in
  ∃ w',
    cmd_add_todo E q w = (Val tt, w') ∧
    todo_file w' = Some (tasks_of w ++ [entry]) ∧
    pending_of (tasks_of w') = pending_of (tasks_of w) ++ [entry] ∧
    config w' = config w ∧ config_file w' = config_file w ∧
    notes_file w' = notes_file w ∧
    last (trace w') = Some (Say ("Added to your to-do list: " +:+ task_text E q w)).
Proof.
  intros Htext entry. subst entry. unfold task_text, tasks_of in *.
  unfold cmd_add_todo, bind. fold (task_payload q).
  destruct (nonempty (task_payload q)) eqn:Hp.
  - unfold ret at 1. rewrite Hp.
    unfold _load_todos, now, _save_todos, speak, bind, modify, gets, ret.
    cbv beta iota. eexists. split; [reflexivity|].
    cbn [todo_file config config_file notes_file trace emit set_todo_file
         next_tick make_data_dir ticks from_option id].
    rewrite pending_of_app, last_snoc. done.
  - rewrite listen_eq, Htext.
    unfold _load_todos, now, _save_todos, speak, bind, modify, gets, ret.
    cbv beta iota. eexists. split; [reflexivity|].
    cbn [todo_file config config_file notes_file trace emit set_todo_file
         next_tick make_data_dir ticks from_option id].
    destruct (emit_all_fields (retry_of (mic E (heard w)))
      (next_heard (emit_all (if nonempty "What task would you like to add?"
                             then [Say "What task would you like to add?"] else []) w)))
      as (-> & -> & -> & -> & _ & _ & ->).
    cbn [todo_file config config_file notes_file ticks next_heard nonempty emit_all
         foldl emit from_option id].
    rewrite pending_of_app, last_snoc. done.
Qed.

Lemma cmd_complete_todo_none q w :
  pending_of (tasks_of w) = [] →
  cmd_complete_todo E q w = (Val tt, emit (Say "No pending tasks.") (make_data_dir w)).
Proof.
  unfold tasks_of. intros Hp. unfold cmd_complete_todo, bind at 1.
  unfold _load_todos at 1. unfold bind, modify, gets, ret.
  cbn [todo_file make_data_dir]. by rewrite Hp.
Qed.

Lemma cmd_read_todos_says q w :
  ∃ evs,
    Forall is_say evs ∧
    cmd_read_todos q w = (Val tt, emit_all evs (make_data_dir w)).
Proof.
  unfold cmd_read_todos, _load_todos. unfold bind, modify, gets, ret.
  cbv beta iota.
  destruct (pending_of (default [] (todo_file (make_data_dir w)))) as [|t pending].
  - exists [Say "Your to-do list is empty."]. split; [|done].
    repeat constructor. by eexists.
  - unfold speak at 1. unfold modify.
    erewrite (for_each_speak (fun x => Py.str_nat x.1 +:+ ". " +:+ task x.2))
      by by intros [i t'].
    eexists (_ :: _). split; [|reflexivity].
    constructor; [by eexists|]. apply Forall_forall.
    intros e [x [<- _]]%list_elem_of_In%in_map_iff. by eexists.
Qed.

(** Every way [cmd_complete_todo] can go once there are pending tasks. *)
Lemma cmd_complete_todo_some q w todos :
  todo_file w = Some todos →
  pending_of todos ≠ [] →
  let response := answer_of (mic E (heard w)) in
  let sorry := Say "I couldn't identify that task number." in
  ∃ w',
    cmd_complete_todo E q w = (Val tt, w') ∧
    config w' = config w ∧ config_file w' = config_file w ∧
    notes_file w' = notes_file w ∧
    (∃ evs, trace w' = trace w ++ evs ∧ Forall is_say evs) ∧
    match Py.re_search_digits response with
    | None => todo_file w' = Some todos ∧ last (trace w') = Some sorry
    | Some digits =>
        match Py.index_of (length todos) (Py.int digits - 1) with
        | None => todo_file w' = Some todos ∧ last (trace w') = Some sorry
        | Some i =>
            todo_file w' = Some (alter finished i todos) ∧
            last (trace w') =
              Some (match Py.index_of (length (pending_of todos)) (Py.int digits - 1)
                          ≫= (pending_of todos !!.) with
                    | Some t => Say ("Great job! Marked '" +:+ task t +:+ "' as done.")
                    | None => sorry
                    end)
        end
    end.
Proof.
  intros Hfile Hpending response sorry.
  unfold cmd_complete_todo, bind at 1. unfold _load_todos at 1.
  unfold bind, modify, gets, ret. cbn [todo_file make_data_dir]. rewrite Hfile.
  cbn [from_option id].
  destruct (pending_of todos) as [|t pending] eqn:Hp; [done|].
  destruct (cmd_read_todos_says "" (make_data_dir w)) as (evs & Hevs & ->).
  rewrite listen_eq.
  destruct (emit_all_fields evs (make_data_dir (make_data_dir w)))
    as (Hc1 & Hf1 & Hn1 & Ht1 & _ & Hh1 & _).
  rewrite Hh1. cbn [heard make_data_dir nonempty]. fold response.
  set (w1 := emit_all [Say "Which task number did you complete?"]
               (emit_all evs (make_data_dir (make_data_dir w)))).
  destruct (emit_all_fields [Say "Which task number did you complete?"]
              (emit_all evs (make_data_dir (make_data_dir w))))
    as (Hc2 & Hf2 & Hn2 & Ht2 & _ & _ & _). fold w1 in Hc2, Hf2, Hn2, Ht2.
  set (w2 := emit_all (retry_of (mic E (heard w))) (next_heard w1)).
  destruct (emit_all_fields (retry_of (mic E (heard w))) (next_heard w1))
    as (Hc3 & Hf3 & Hn3 & Ht3 & _ & _ & _). fold w2 in Hc3, Hf3, Hn3, Ht3.
  cbn [config config_file notes_file todo_file next_heard make_data_dir]
    in Hc1, Hf1, Hn1, Ht1, Hc3, Hf3, Hn3, Ht3.
  assert (config w2 = config w) as Hc by congruence.
  assert (config_file w2 = config_file w) as Hf by congruence.
  assert (notes_file w2 = notes_file w) as Hn by congruence.
  assert (todo_file w2 = Some todos) as Ht by congruence.
  assert (∃ evs2, trace w2 = trace w ++ evs2 ∧ Forall is_say evs2) as (evs2 & Htr & Hsay).
  { exists (evs ++ [Say "Which task number did you complete?"]
            ++ retry_of (mic E (heard w))).
    split.
    - unfold w2, w1. rewrite !trace_emit_all. cbn [trace next_heard make_data_dir].
      rewrite !trace_emit_all. cbn [trace make_data_dir]. by rewrite <- !app_assoc.
    - repeat apply Forall_app_2; try done; [|apply retry_of_says].
      repeat constructor. by eexists. }
  assert (is_say sorry) as Hsorry by by eexists.
  clearbody w2. clear Hc1 Hf1 Hn1 Ht1 Hh1 Hc2 Hf2 Hn2 Ht2 Hc3 Hf3 Hn3 Ht3 w1.
  unfold try_except, mark_done, getitem, raise, _save_todos, speak, modify, ret.
  cbv beta iota.
  assert (∀ e w3,
            is_say e → config w3 = config w2 → config_file w3 = config_file w2 →
            notes_file w3 = notes_file w2 → trace w3 = trace w2 →
            config (emit e w3) = config w ∧ config_file (emit e w3) = config_file w ∧
            notes_file (emit e w3) = notes_file w ∧
            (∃ evs, trace (emit e w3) = trace w ++ evs ∧ Forall is_say evs) ∧
            todo_file (emit e w3) = todo_file w3 ∧
            last (trace (emit e w3)) = Some e) as Hend.
  { intros e w3 He Hc' Hf' Hn' Ht'. cbn [config config_file notes_file todo_file trace emit].
    split; [congruence|]. split; [congruence|]. split; [congruence|]. split.
    - exists (evs2 ++ [e]). rewrite Ht', Htr, app_assoc. split; [done|].
      apply Forall_app_2; [done|by repeat constructor].
    - by rewrite last_snoc. }
  destruct (Py.re_search_digits response) as [digits|].
  2:{ cbn [exn_class]. rewrite bool_decide_eq_true_2 by by repeat constructor.
      eexists. split; [reflexivity|].
      destruct (Hend sorry w2 Hsorry) as (? & ? & ? & ? & Htodo & ?);
        [done|done|done|done|].
      rewrite Ht in Htodo. done. }
  destruct (Py.index_of (length todos) (Py.int digits - 1)) as [i|].
  2:{ cbn [exn_class]. rewrite bool_decide_eq_true_2 by by repeat constructor.
      eexists. split; [reflexivity|].
      destruct (Hend sorry w2 Hsorry) as (? & ? & ? & ? & Htodo & ?);
        [done|done|done|done|].
      rewrite Ht in Htodo. done. }
  destruct (Py.index_of (length (t :: pending)) (Py.int digits - 1) ≫= _) as [t'|].
  - eexists. split; [reflexivity|].
    destruct (Hend (Say ("Great job! Marked '" +:+ task t' +:+ "' as done."))
                (set_todo_file (Some (alter finished i todos)) w2))
      as (? & ? & ? & ? & Htodo & ?); [by eexists|done|done|done|done|].
    done.
  - cbn [exn_class]. rewrite bool_decide_eq_true_2 by by repeat constructor.
    eexists. split; [reflexivity|].
    destruct (Hend sorry (set_todo_file (Some (alter finished i todos)) w2) Hsorry)
      as (? & ? & ? & ? & Htodo & ?); [done|done|done|done|].
    done.
Qed.

(** X7. Completing never loses a task.  Whatever is answered,
    [cmd_complete_todo] returns; the list it leaves has the same entries
    in the same order with their descriptions and times of creation, and
    every entry that was finished is still finished; settings and notes
    are untouched and nothing but speech is emitted. *)
Theorem complete_never_loses_tasks q w :
  ∃ w',
    cmd_complete_todo E q w = (Val tt, w') ∧
    Forall2 task_kept (tasks_of w) (tasks_of w') ∧
    config w' = config w ∧ config_file w' = config_file w ∧
    notes_file w' = notes_file w ∧
    ∃ evs, trace w' = trace w ++ evs ∧ Forall is_say evs.
Proof.
  destruct (pending_of (tasks_of w)) as [|t pending] eqn:Hp.
  - rewrite cmd_complete_todo_none by done. eexists. split; [reflexivity|].
    split; [apply tasks_kept_refl|]. repeat split.
    exists [Say "No pending tasks."]. split; [done|]. repeat constructor. by eexists.
  - unfold tasks_of in *. destruct (todo_file w) as [todos|] eqn:Hfile; [|done].
    cbn [from_option id] in Hp.
    destruct (cmd_complete_todo_some q w todos Hfile) as
      (w' & Hrun & Hc & Hf & Hn & Hev & Hcases); [by rewrite Hp|].
    exists w'. split; [done|]. split; [|done].
    destruct (Py.re_search_digits _) as [digits|].
    + destruct (Py.index_of (length todos) _) as [i|].
      * destruct Hcases as [-> _]. apply alter_finished_kept.
      * destruct Hcases as [-> _]. apply tasks_kept_refl.
    + destruct Hcases as [-> _]. apply tasks_kept_refl.
Qed.

(** X8. An answer without a usable number changes nothing.  With
    pending tasks in the store, when the answer, an ASCII text, holds no
    digit, or its first number is greater than the length of the whole
    list, the list is left as it was and the last thing said is that the
    number could not be identified; when nothing is pending, the handler
    says so and does not even ask. *)
Theorem complete_without_number_keeps_store q w todos :
  todo_file w = Some todos →
  ascii_text (raw_of (mic E (heard w))) →
  let response := answer_of (mic E (heard w)) in
  (pending_of todos ≠ [] →
   (Py.re_search_digits response = None ∨
    ∃ digits, Py.re_search_digits response = Some digits ∧
              (Z.of_nat (length todos) < Py.int digits)%Z) →
   ∃ w',
     cmd_complete_todo E q w = (Val tt, w') ∧
     todo_file w' = Some todos ∧
     last (trace w') = Some (Say "I couldn't identify that task number.")) ∧
  (pending_of todos = [] →
   cmd_complete_todo E q w = (Val tt, emit (Say "No pending tasks.") (make_data_dir w))).
Proof.
  intros Hfile _ response. split.
  - intros Hpending Hbad.
    destruct (cmd_complete_todo_some q w todos Hfile Hpending) as
      (w' & Hrun & _ & _ & _ & _ & Hcases).
    exists w'. split; [done|]. fold response in Hcases.
    destruct Hbad as [Hnone | (digits & Hsome & Hbig)].
    + by rewrite Hnone in Hcases.
    + rewrite Hsome in Hcases.
      assert (Py.index_of (length todos) (Py.int digits - 1) = None) as Hidx.
      { unfold Py.index_of. repeat case_decide; try done; lia. }
      by rewrite Hidx in Hcases.
  - intros Hpending. apply cmd_complete_todo_none. unfold tasks_of. by rewrite Hfile.
Qed.

(** X9. Completing is right when no finished task comes first.  When
    the answer's number [n] lies within the list and the first [n] entries
    are all pending, the entry marked and saved is the [n]-th pending
    task, it is the one named in the congratulation, and the pending tasks
    afterwards are the former ones without it, in their order. *)
Theorem complete_right_without_finished_before q w todos digits n :
  todo_file w = Some todos →
  Py.re_search_digits (answer_of (mic E (heard w))) = Some digits →
  Py.int digits = Z.of_nat n →
  1 ≤ n ≤ length todos →
  Forall (fun t => done t = false) (take n todos) →
  ∃ w' t,
    cmd_complete_todo E q w = (Val tt, w') ∧
    pending_of todos !! (n - 1) = Some t ∧
    todo_file w' = Some (alter finished (n - 1) todos) ∧
    pending_of (tasks_of w') = delete (n - 1) (pending_of todos) ∧
    last (trace w') = Some (Say ("Great job! Marked '" +:+ task t +:+ "' as done.")).
Proof.
  intros Hfile Hdigits Hint Hn Hlead.
  destruct n as [|k]; [lia|]. replace (S k - 1) with k by lia.
  destruct (leading_pending todos k) as [Hlook Hdel]; [lia|done|].
  destruct (lookup_lt_is_Some_2 todos k) as [t Ht]; [lia|].
  rewrite Ht in Hlook.
  assert (k < length (pending_of todos)) as Hk by by eapply lookup_lt_Some.
  assert (pending_of todos ≠ []) as Hpending.
  { intros Hnil. rewrite Hnil in Hk. simpl in Hk. lia. }
  destruct (cmd_complete_todo_some q w todos Hfile Hpending) as
    (w' & Hrun & _ & _ & _ & _ & Hcases).
  rewrite Hdigits, Hint in Hcases.
  assert (∀ len, k < len → Py.index_of len (Z.of_nat (S k) - 1) = Some k) as Hidx.
  { intros len Hlen. unfold Py.index_of. rewrite decide_True by lia. f_equal. lia. }
  rewrite !Hidx in Hcases by lia. cbn [mbind option_bind] in Hcases.
  rewrite Hlook in Hcases. destruct Hcases as [Htodo Hlast].
  exists w', t. unfold tasks_of. rewrite Htodo. done.
Qed.

End Todo.

Lemma add_todo_appends_one_pending_witness :
  ∃ w',
    cmd_add_todo (sample_env []) "remind me to buy milk" (with_todos [task_rent])
      = (Val tt, w') ∧
    todo_file w' = Some [task_rent; mkTask "buy milk" false "2024-03-09 14:00:07"] ∧
    pending_of (tasks_of w') = [mkTask "buy milk" false "2024-03-09 14:00:07"].
Proof.
  destruct (add_todo_appends_one_pending (sample_env []) "remind me to buy milk"
              (with_todos [task_rent]) eq_refl)
    as (w' & Hrun & Hfile & Hpending & _).
  exists w'. split; [exact Hrun|]. split; [exact Hfile|exact Hpending].
Defined.

Lemma complete_without_number_keeps_store_witness :
  ∃ w',
    cmd_complete_todo (sample_env [Recognised "the second one"]) "complete task"
      (with_todos [task_rent; task_milk]) = (Val tt, w') ∧
    todo_file w' = Some [task_rent; task_milk] ∧
    last (trace w') = Some (Say "I couldn't identify that task number.").
Proof.
  apply (proj1 (complete_without_number_keeps_store
                  (sample_env [Recognised "the second one"]) "complete task"
                  (with_todos [task_rent; task_milk]) [task_rent; task_milk]
                  eq_refl eq_refl)).
  - done.
  - left. reflexivity.
Defined.

Lemma complete_right_without_finished_before_witness :
  ∃ w' t,
    cmd_complete_todo (sample_env [Recognised "number 2"]) "complete task"
      (with_todos [task_milk; task_mom; task_rent; task_dog]) = (Val tt, w') ∧
    pending_of [task_milk; task_mom; task_rent; task_dog] !! (2 - 1) = Some t ∧
    todo_file w' = Some (alter finished (2 - 1) [task_milk; task_mom; task_rent; task_dog]) ∧
    pending_of (tasks_of w')
      = delete (2 - 1) (pending_of [task_milk; task_mom; task_rent; task_dog]) ∧
    last (trace w') = Some (Say ("Great job! Marked '" +:+ task t +:+ "' as done.")).
Proof.
  apply (complete_right_without_finished_before (sample_env [Recognised "number 2"])
           "complete task" (with_todos [task_milk; task_mom; task_rent; task_dog])
           [task_milk; task_mom; task_rent; task_dog] "2" 2).
  - reflexivity.
  - reflexivity.
  - reflexivity.
  - simpl. lia.
  - by repeat constructor.
Defined.

(** ** Notes and reading *)

Lemma first_alt_none alts s a :
  Py.first_alt alts s = None → In a alts → Py.startswith a s = false.
Proof.
  induction alts as [|b alts IH]; simpl; [done|].
  destruct (Py.startswith b s) eqn:Hb; [done|].
  intros Hnone [-> | Hin]; auto.
Qed.

Lemma first_alt_some alts s n :
  Py.first_alt alts s = Some n →
  ∃ a, In a alts ∧ n = String.length a ∧ Py.startswith a s = true.
Proof.
  induction alts as [|b alts IH]; simpl; [done|].
  destruct (Py.startswith b s) eqn:Hb.
  - intros [= <-]. eauto.
  - intros H. destruct (IH H) as (a & Hin & Hn & Ha). eauto.
Qed.

Lemma sub_from_drops_char alts x skip s :
  In (String x "") alts →
  Forall (fun a => nonempty a = true) alts →
  all_chars (fun c => negb (bool_decide (c = x))) (Py.sub_from alts skip s) = true.
Proof.
  intros Hx Hne. revert skip. induction s as [|c s IH]; intros skip; [done|].
  cbn [Py.sub_from]. destruct skip as [|k]; [|apply IH].
  assert (Py.first_alt alts (String c s) = None →
          negb (bool_decide (c = x)) = true) as Hkeep.
  { intros Hnone. apply (first_alt_none _ _ _ Hnone) in Hx. simpl in Hx.
    destruct (decide (x = c)) as [->|Hc]; [done|].
    apply negb_true_iff, bool_decide_eq_false. congruence. }
  destruct (Py.first_alt alts (String c s)) as [[|k]|] eqn:Hfirst.
  - apply first_alt_some in Hfirst as (a & Hin & Hlen & _).
    rewrite Forall_forall in Hne. apply list_elem_of_In, Hne in Hin.
    by destruct a.
  - apply IH.
  - cbn [all_chars]. by rewrite Hkeep, IH.
Qed.

Lemma lstrip_all_chars p s : all_chars p s = true → all_chars p (Py.lstrip s) = true.
Proof.
  induction s as [|c s IH]; simpl; [done|].
  intros [Hc Hs]%andb_true_iff. destruct (Py.isspace c); [auto|].
  simpl. by rewrite Hc, Hs.
Qed.

Lemma rstrip_all_chars p s : all_chars p s = true → all_chars p (Py.rstrip s) = true.
Proof.
  induction s as [|c s IH]; simpl; [done|].
  intros [Hc Hs]%andb_true_iff. specialize (IH Hs).
  destruct (Py.rstrip s) as [|d r].
  - destruct (Py.isspace c); simpl; [done|]. by rewrite Hc.
  - cbn [all_chars] in *. by rewrite Hc, IH.
Qed.

Lemma all_chars_occurs p s x :
  all_chars p s = true → occurs_in (String x "") s → p x = true.
Proof.
  intros Hall (a & b & ->). rewrite all_chars_app in Hall.
  apply andb_true_iff in Hall as [_ Hall]. simpl in Hall.
  by apply andb_true_iff in Hall as [Hx _].
Qed.

Section NotesMore.

Context (E : Env).

(** X10. A note cut out of the input has lost every letter a.  The
    pattern of [cmd_write_note] lists the bare letter among the words it
    deletes, so no "a" is left in the text that is stored, wherever it
    stood in the input; the stored record is that text behind the time
    stamp. *)
Theorem note_from_input_has_no_a q w :
  ¬ occurs_in "a" (note_payload q) ∧
  (nonempty (note_payload q) = true →
   ∃ w',
     cmd_write_note E q w = (Val tt, w') ∧
     notes_file w' =
       Some (default "" (notes_file w)
             +:+ (note_timestamp (clock E (ticks w)) +:+ " " +:+ note_payload q)
             +:+ String Py.LF "")).
Proof.
  split.
  - intros Hocc.
    assert (all_chars (fun c => negb (bool_decide (c = "a"%char))) (note_payload q) = true)
      as Hall.
    { unfold note_payload, Py.strip, Py.re_sub_alts.
      apply rstrip_all_chars, lstrip_all_chars, sub_from_drops_char.
      - simpl. auto.
      - by repeat constructor. }
    by apply (all_chars_occurs _ _ "a"%char Hall) in Hocc.
  - intros Hp. rewrite cmd_write_note_eq, Hp, append_note_eq.
    eexists. split; [reflexivity|]. done.
Qed.

(** X11. Writing a note only ever appends.  For every input and every
    answer [cmd_write_note] returns; the notes file is either as it was,
    or its former text followed by exactly one new line that holds a time
    stamp, a blank and a text that is not empty; settings and tasks are
    untouched. *)
Theorem write_note_only_appends q w :
  ∃ w',
    cmd_write_note E q w = (Val tt, w') ∧
    config w' = config w ∧ config_file w' = config_file w ∧
    todo_file w' = todo_file w ∧
    (notes_file w' = notes_file w ∨
     ∃ note,
       nonempty note = true ∧
       notes_file w' =
         Some (default "" (notes_file w)
               +:+ (note_timestamp (clock E (ticks w)) +:+ " " +:+ note)
               +:+ String Py.LF "")).
Proof.
  rewrite cmd_write_note_eq.
  destruct (nonempty (note_payload q)) eqn:Hp.
  - rewrite append_note_eq. eexists. split; [reflexivity|].
    repeat split. right. by exists (note_payload q).
  - pose proof (listen_only_emitted E "What would you like to note down?"
                  (make_data_dir w)) as ((Hc & Hf & Hn & Ht) & _ & _).
    cbv zeta.
    assert (ticks (listen E "What would you like to note down?" (make_data_dir w)).2
            = ticks w) as Hticks.
    { rewrite listen_eq. cbn [snd].
      destruct (emit_all_fields (retry_of (mic E (heard (make_data_dir w))))
        (next_heard (emit_all (if nonempty "What would you like to note down?"
                               then [Say "What would you like to note down?"] else [])
                       (make_data_dir w))))
        as (_ & _ & _ & _ & _ & _ & ->).
      cbn [ticks next_heard nonempty].
      by destruct (emit_all_fields [Say "What would you like to note down?"]
        (make_data_dir w)) as (_ & _ & _ & _ & _ & _ & ->). }
    cbn [config config_file notes_file todo_file make_data_dir] in Hc, Hf, Hn, Ht.
    destruct (nonempty (answer_of (mic E (heard w)))) eqn:Ha.
    + rewrite append_note_eq. eexists. split; [reflexivity|].
      cbn [config config_file todo_file notes_file emit set_notes_file next_tick].
      rewrite Hc, Hf, Ht, Hn, Hticks. repeat split.
      right. by exists (answer_of (mic E (heard w))).
    + eexists. split; [reflexivity|]. rewrite Hc, Hf, Ht, Hn. repeat split. by left.
Qed.

(** X12. Reading changes no store.  On files that can be read
    ([todo.json] absent or a list of entries, [notes.txt] absent or any
    text) [cmd_read_todos] and [cmd_read_notes] only speak: settings, notes
    and tasks are the same afterwards, whatever the lists and the text
    hold. *)
Theorem reading_changes_no_store q w :
  (∃ evs w',
     cmd_read_todos q w = (Val tt, w') ∧ same_stores w w' ∧
     trace w' = trace w ++ evs ∧ Forall is_say evs) ∧
  (∃ evs w',
     cmd_read_notes q w = (Val tt, w') ∧ same_stores w w' ∧
     trace w' = trace w ++ evs ∧ Forall is_say evs).
Proof.
  split.
  - destruct (cmd_read_todos_says q w) as (evs & Hsay & ->).
    exists evs, (emit_all evs (make_data_dir w)). split; [done|].
    destruct (only_emitted_says evs (make_data_dir w)) as (Hs & _ & Htr). done.
  - assert (∀ evs, Forall is_say evs →
              cmd_read_notes q w = (Val tt, emit_all evs w) →
              ∃ evs w', cmd_read_notes q w = (Val tt, w') ∧ same_stores w w' ∧
                        trace w' = trace w ++ evs ∧ Forall is_say evs) as Hdone.
    { intros evs Hsay Hrun. exists evs, (emit_all evs w). split; [done|].
      destruct (only_emitted_says evs w) as (Hs & _ & Htr). done. }
    destruct (notes_file w) as [[|c text]|] eqn:Hfile.
    + apply (Hdone [Say "You have no notes saved."]).
      * repeat constructor. by eexists.
      * unfold cmd_read_notes, bind, gets. by rewrite Hfile.
    + eapply Hdone; [|unfold cmd_read_notes; fold (cmd_read_notes "");
                       exact (cmd_read_notes_text c text w Hfile)].
      constructor; [by eexists|]. apply Forall_forall.
      intros e [[i note] [<- _]]%list_elem_of_In%in_map_iff. by eexists.
    + apply (Hdone [Say "You have no notes saved."]).
      * repeat constructor. by eexists.
      * unfold cmd_read_notes, bind, gets. by rewrite Hfile.
Qed.


End NotesMore.

Lemma note_from_input_has_no_a_witness :
  ∃ w',
    cmd_write_note (sample_env []) "note that the cat is out" fresh_world = (Val tt, w') ∧
    notes_file w' = Some ("[2024-03-09 14:00] the ct is out" +:+ String Py.LF "").
Proof.
  exact (proj2 (note_from_input_has_no_a (sample_env []) "note that the cat is out"
                  fresh_world) eq_refl).
Defined.


(** ** Start and main loop *)

Lemma exit_keyword_nonempty q : any_occurs EXIT_KEYWORDS q → q ≠ "".
Proof.
  intros (kw & Hin & a & b & ->) Heq.
  assert (kw ≠ "") as Hkw.
  { apply list_elem_of_In in Hin. simpl in Hin.
    repeat (destruct Hin as [<-|Hin]; [done|]). done. }
  destruct a; simpl in Heq; [|done]. by destruct kw.
Qed.

Section StartAndLoop.

Context (E : Env).

(** X15. After import the greeting cannot fail.  Whether the
    configuration file is absent or holds a document, with whatever keys,
    [startup] leaves a configuration with all default keys, on which
    [wish_me] returns after exactly one utterance.  On a configuration
    without the user's name [wish_me] raises the [KeyError] of that key
    and says nothing. *)
Theorem greeting_after_import w :
  (∃ w1,
     startup w = (Val tt, w1) ∧ defaults_present (config w1) ∧
     ∃ text w2, wish_me E w1 = (Val tt, w2) ∧ trace w2 = trace w1 ++ [Say text]) ∧
  (∀ w0, config w0 !! "user_name" = None →
     wish_me E w0 = (Exc (mkExn KeyError "'user_name'"), next_tick w0)).
Proof.
  split.
  - assert (∃ cfg w1, load_config w = (Val cfg, w1) ∧ defaults_present cfg)
      as (cfg & w1 & Hload & Hcfg).
    { rewrite load_config_eq. destruct (config_file w); eexists _, _; split; try done.
      - apply defaults_present_filled.
      - apply defaults_present_default. }
    exists (set_config cfg w1). split; [|split; [done|]].
    { unfold startup, bind. by rewrite Hload. }
    pose proof Hcfg as Hall. unfold defaults_present in Hall.
    rewrite Forall_forall in Hall.
    destruct (Hall ("user_name", JStr "User")) as [user Huser]; [by repeat constructor|].
    destruct (Hall ("assistant_name", JStr "Aria")) as [name Hname]; [by repeat constructor|].
    cbn [fst] in Huser, Hname.
    unfold wish_me, bind, now, config_get, speak, modify. cbv beta iota.
    cbn [config set_config next_tick]. rewrite Huser. cbv beta iota.
    cbn [config set_config next_tick]. rewrite Hname.
    eexists _, _. split; [reflexivity|]. done.
  - intros w0 Hnone. unfold wish_me, bind, now, config_get. cbv beta iota.
    cbn [config next_tick]. by rewrite Hnone.
Qed.

(** X16. Blank lines keep the loop going, an exit keyword ends it.  In
    text mode, while the lines typed are blank the loop neither stops nor
    says anything, however many rounds it is given; when the line after
    [n] blank ones holds an exit keyword, [n + 1] rounds end the loop, and
    all that has happened is the goodbye. *)
Theorem blank_lines_then_exit n w :
  (∀ i, i < n → typed_line E (typed w + i) = "") →
  main_loop E n false w = None ∧
  (∀ extra user,
     any_occurs EXIT_KEYWORDS (typed_line E (typed w + n)) →
     config w !! "user_name" = Some user →
     main_loop E (S n + extra) false w =
       Some (Val tt,
             emit (Say ("Goodbye, " +:+ py_str user +:+ "! Have a wonderful day."))
                  (Nat.iter (S n) next_typed w))).
Proof.
  revert w. induction n as [|n IH]; intros w Hblank.
  - split; [done|]. intros extra user Hexit Huser.
    rewrite Nat.add_0_r in Hexit. cbn [Nat.add main_loop].
    unfold bind at 1. unfold take_text_input. fold (typed_line E (typed w)).
    unfold dispatch.
    rewrite (nonempty_true _ (exit_keyword_nonempty _ Hexit)),
            (proj2 (any_in_spec _ _) Hexit).
    cbn [negb]. unfold bind, config_get, speak, modify, ret. cbv beta.
    cbn [config next_typed]. by rewrite Huser.
  - assert (main_loop E (S n) false w = main_loop E n false (next_typed w) ∧
            ∀ extra, main_loop E (S (S n) + extra) false w
                     = main_loop E (S n + extra) false (next_typed w)) as [Hstep Hstep'].
    { assert (∀ fuel, main_loop E (S fuel) false w = main_loop E fuel false (next_typed w))
        as Hone.
      { intros fuel. cbn [main_loop]. unfold bind at 1. unfold take_text_input.
        fold (typed_line E (typed w)).
        rewrite <- (Nat.add_0_r (typed w)), (Hblank 0) by lia. done. }
      split; [apply Hone|]. intros extra. apply Hone. }
    destruct (IH (next_typed w)) as [Hnone Hexit].
    { intros i Hi. cbn [typed next_typed].
      replace (S (typed w) + i) with (typed w + S i) by lia. apply Hblank. lia. }
    split; [by rewrite Hstep|].
    intros extra user Hq Huser. rewrite Hstep'.
    rewrite (Hexit extra user); [| |done].
    + by rewrite (Nat.iter_succ_r (S n)).
    + cbn [typed next_typed]. by replace (S (typed w) + n) with (typed w + S n) by lia.
Qed.

End StartAndLoop.

Lemma blank_lines_then_exit_witness :
  main_loop (mkEnv (fun _ => WaitTimeout)
                   (fun i => if decide (i < 2) then "   " else " Goodbye ")
                   sample_time "linux" (fun _ => PageMissing) (fun _ _ => ret tt))
            3 false started_world
  = Some (Val tt,
          emit (Say "Goodbye, User! Have a wonderful day.")
               (Nat.iter 3 next_typed started_world)).
Proof.
  refine (proj2 (blank_lines_then_exit
    (mkEnv (fun _ => WaitTimeout)
           (fun i => if decide (i < 2) then "   " else " Goodbye ")
           sample_time "linux" (fun _ => PageMissing) (fun _ _ => ret tt))
    2 started_world _) 0 (JStr "User") _ _).
  - intros i Hi. cbn [typed started_world]. unfold typed_line. cbn [keyboard].
    destruct i as [|[|i]]; [reflexivity|reflexivity|lia].
  - by apply any_in_spec.
  - reflexivity.
Defined.

(** ** Lookups and pages *)

Lemma opened_urls_app evs evs' :
  opened_urls (evs ++ evs') = opened_urls evs ++ opened_urls evs'.
Proof. apply omap_app. Qed.

Lemma lookups_app evs evs' : lookups (evs ++ evs') = lookups evs ++ lookups evs'.
Proof. apply omap_app. Qed.

Lemma retry_of_quiet h :
  opened_urls (retry_of h) = [] ∧ lookups (retry_of h) = [] ∧
  power_commands (retry_of h) = [].
Proof. by destruct h. Qed.

Lemma reply_events_quiet r :
  opened_urls (reply_events r) = [] ∧ lookups (reply_events r) = [] ∧
  power_commands (reply_events r) = [].
Proof. by destruct r. Qed.

Lemma plus_for_blank_no_blank s :
  all_chars (fun c => negb (bool_decide (c = " "%char))) (Py.plus_for_blank s) = true.
Proof.
  induction s as [|c s IH]; simpl; [done|]. rewrite IH, andb_true_r.
  destruct (decide (c = " "%char)) as [->|Hc]; [done|].
  by apply negb_true_iff, bool_decide_eq_false.
Qed.

Section Lookups.

Context (E : Env).

Lemma payload_or_listen {A} payload prompt (k : string → M A) w :
  nonempty prompt = true →
  ∃ evs w1,
    only_emitted evs w w1 ∧ Forall is_say evs ∧
    opened_urls evs = [] ∧ lookups evs = [] ∧ power_commands evs = [] ∧
    (let* text := (if nonempty payload then ret payload else listen E prompt) in k text) w
    = k (payload_or_answer E payload w) w1.
Proof.
  intros Hprompt. unfold payload_or_answer, bind.
  destruct (nonempty payload).
  - exists [], w. split; [apply only_emitted_refl|]. by repeat split.
  - pose proof (listen_only_emitted E prompt w) as Hl. rewrite Hprompt in Hl.
    destruct (listen E prompt w) as [r w1] eqn:Hw1. rewrite listen_eq in Hw1.
    injection Hw1 as <- Hw1. cbn [snd] in Hl.
    eexists _, w1. split; [exact Hl|].
    destruct (retry_of_quiet (mic E (heard w))) as (Hu & Hk & Hp).
    rewrite opened_urls_app, lookups_app, power_commands_app, Hu, Hk, Hp.
    repeat split; try done.
    apply Forall_app_2; [|apply retry_of_says]. repeat constructor. by eexists.
Qed.

(** X17. [cmd_wikipedia] turns every answer of the encyclopedia into
    speech.  For every input it returns and leaves the stores alone; it
    looks up exactly one topic, the one left of the input or else the
    answer to its question, when that is not empty, and none otherwise;
    a summary, an ambiguous title, a missing page and any other failure
    of the service each end in an utterance (the last with a diagnostic
    line), and no page is opened and no system command issued. *)
Theorem wikipedia_answers_are_spoken q w :
  let topic := payload_or_answer E (wiki_payload q) w in
  ∃ evs w',
    cmd_wikipedia E q w = (Val tt, w') ∧ only_emitted evs w w' ∧
    lookups evs = (if nonempty topic then [topic] else []) ∧
    opened_urls evs = [] ∧ power_commands evs = [] ∧
    (nonempty topic = true →
     ∃ before, evs = before ++ Say ("Searching Wikipedia for: " +:+ topic)
                              :: WikiLookup topic
                              :: reply_events (wikipedia_summary E topic)).
Proof.
  intros topic. unfold cmd_wikipedia. fold (wiki_payload q).
  destruct (payload_or_listen (wiki_payload q)
              "What topic would you like me to look up on Wikipedia?"
              (fun topic =>
                 if nonempty topic then
                   run* speak ("Searching Wikipedia for: " +:+ topic) in
                   run* modify (emit (WikiLookup topic)) in
                   match wikipedia_summary E topic with
                   | Summary summary => speak summary
                   | Disambiguation options =>
                       speak ("There are multiple results. Did you mean: "
                              +:+ String.concat ", " (take 4 options) +:+ "?")
                   | PageMissing => speak "I couldn't find a Wikipedia page for that topic."
                   | WikiFault detail =>
                       run* speak "Something went wrong while fetching Wikipedia." in
                       print ("   [WikiError] " +:+ detail)
                   end
                 else ret tt) w eq_refl)
    as (evs & w1 & Hemit & _ & Hu & Hk & Hp & ->).
  fold topic. destruct (nonempty topic) eqn:Htopic.
  - exists (evs ++ Say ("Searching Wikipedia for: " +:+ topic)
                 :: WikiLookup topic :: reply_events (wikipedia_summary E topic)).
    exists (emit_all (Say ("Searching Wikipedia for: " +:+ topic)
                      :: WikiLookup topic :: reply_events (wikipedia_summary E topic)) w1).
    split; [|split; [by apply only_emitted_emit_all|]].
    { unfold bind, speak, print, modify. by destruct (wikipedia_summary E topic). }
    destruct (reply_events_quiet (wikipedia_summary E topic)) as (Hu' & Hk' & Hp').
    rewrite lookups_app, opened_urls_app, power_commands_app, Hu, Hk, Hp.
    cbn [lookups opened_urls power_commands omap list_omap app].
    fold (lookups (reply_events (wikipedia_summary E topic))).
    fold (opened_urls (reply_events (wikipedia_summary E topic))).
    fold (power_commands (reply_events (wikipedia_summary E topic))).
    rewrite Hu', Hk', Hp'. repeat split; try done. intros _. by exists evs.
  - exists evs, w1. split; [done|]. split; [done|]. by repeat split.
Qed.

(** X18. The two search handlers open at most one page, and its address
    has no blank.  For every input each of them returns and leaves the
    stores alone; when the term (left of the input, or else the answer) is
    not empty exactly one address is opened, the search address followed
    by the term with a plus sign for every blank; when it is empty no page
    is opened.  No lookup and no system command is made. *)
Theorem search_opens_one_address q w :
  (let term := payload_or_answer E (search_payload q) w in
   ∃ evs w',
     cmd_search_google E q w = (Val tt, w') ∧ only_emitted evs w w' ∧
     opened_urls evs =
       (if nonempty term
        then ["https://www.google.com/search?q=" +:+ Py.plus_for_blank term] else []) ∧
     lookups evs = [] ∧ power_commands evs = [] ∧
     Forall (fun url => ¬ occurs_in " " url) (opened_urls evs)) ∧
  (let term := payload_or_answer E (youtube_payload q) w in
   ∃ evs w',
     cmd_search_youtube E q w = (Val tt, w') ∧ only_emitted evs w w' ∧
     opened_urls evs =
       (if nonempty term
        then ["https://www.youtube.com/results?search_query=" +:+ Py.plus_for_blank term]
        else []) ∧
     lookups evs = [] ∧ power_commands evs = [] ∧
     Forall (fun url => ¬ occurs_in " " url) (opened_urls evs)).
Proof.
  assert (∀ prefix term,
            all_chars (fun c => negb (bool_decide (c = " "%char))) prefix = true →
            ¬ occurs_in " " (prefix +:+ Py.plus_for_blank term)) as Hblank.
  { intros prefix term Hprefix Hocc.
    assert (all_chars (fun c => negb (bool_decide (c = " "%char)))
              (prefix +:+ Py.plus_for_blank term) = true) as Hall
      by by rewrite all_chars_app, Hprefix, plus_for_blank_no_blank.
    by apply (all_chars_occurs _ _ " "%char Hall) in Hocc. }
  assert (∀ payload prompt announce prefix,
            nonempty prompt = true →
            all_chars (fun c => negb (bool_decide (c = " "%char))) prefix = true →
            let term := payload_or_answer E payload w in
            ∃ evs w',
              (let* term := (if nonempty payload then ret payload else listen E prompt) in
               if nonempty term then
                 run* speak (announce +:+ term) in
                 webbrowser_open (prefix +:+ Py.plus_for_blank term)
               else ret tt) w = (Val tt, w') ∧
              only_emitted evs w w' ∧
              opened_urls evs =
                (if nonempty term then [prefix +:+ Py.plus_for_blank term] else []) ∧
              lookups evs = [] ∧ power_commands evs = [] ∧
              Forall (fun url => ¬ occurs_in " " url) (opened_urls evs)) as Hsearch.
  { intros payload prompt announce prefix Hprompt Hprefix term.
    destruct (payload_or_listen payload prompt
                (fun term =>
                   if nonempty term then
                     run* speak (announce +:+ term) in
                     webbrowser_open (prefix +:+ Py.plus_for_blank term)
                   else ret tt) w Hprompt)
      as (evs & w1 & Hemit & _ & Hu & Hk & Hp & ->).
    fold term. destruct (nonempty term) eqn:Hterm.
    - exists (evs ++ [Say (announce +:+ term); OpenUrl (prefix +:+ Py.plus_for_blank term)]).
      exists (emit_all [Say (announce +:+ term);
                        OpenUrl (prefix +:+ Py.plus_for_blank term)] w1).
      split; [done|]. split; [by apply only_emitted_emit_all|].
      rewrite lookups_app, opened_urls_app, power_commands_app, Hu, Hk, Hp.
      repeat split; try done. repeat constructor. by apply Hblank.
    - exists evs, w1. rewrite Hu. split; [done|]. split; [done|]. by repeat split. }
  split.
  - apply (Hsearch (search_payload q) "What would you like me to search for?"
             "Searching Google for: " "https://www.google.com/search?q="); done.
  - apply (Hsearch (youtube_payload q) "What would you like to search on YouTube?"
             "Searching YouTube for: " "https://www.youtube.com/results?search_query="); done.
Qed.

End Lookups.

(** ** Opening a site *)

Lemma open_site_from_first sites q before site url after w :
  sites = before ++ (site, url) :: after →
  Forall (fun entry : string * string => ¬ occurs_in entry.1 q) before →
  occurs_in site q →
  open_site_from sites q w
  = (Val tt, emit (OpenUrl url) (emit (Say ("Opening " +:+ site +:+ ".")) w)).
Proof.
  intros -> Hbefore Hsite. induction Hbefore as [|[s u] before Hno _ IH]; simpl.
  - apply contains_spec in Hsite. by rewrite Hsite.
  - cbn [fst] in Hno. rewrite <- contains_spec in Hno.
    destruct (Py.contains s q); [done|]. apply IH.
Qed.

Lemma open_site_from_none sites q w :
  Forall (fun entry : string * string => ¬ occurs_in entry.1 q) sites →
  open_site_from sites q w
  = (Val tt, emit (Say "Which website would you like me to open?") w).
Proof.
  induction 1 as [|[s u] sites Hno _ IH]; simpl; [done|].
  cbn [fst] in Hno. rewrite <- contains_spec in Hno.
  by destruct (Py.contains s q).
Qed.

Lemma first_named_site sites q :
  Exists (fun entry : string * string => occurs_in entry.1 q) sites →
  ∃ before site url after,
    sites = before ++ (site, url) :: after ∧
    Forall (fun entry : string * string => ¬ occurs_in entry.1 q) before ∧
    occurs_in site q.
Proof.
  induction sites as [|[s u] sites IH]; intros Hex; [by apply Exists_nil in Hex|].
  destruct (Py.contains s q) eqn:Hs.
  - exists [], s, u, sites. split; [done|]. split; [constructor|by apply contains_spec].
  - assert (¬ occurs_in s q) as Hno by (rewrite <- contains_spec; congruence).
    apply Exists_cons in Hex as [Hhere|Hlater]; [done|].
    destruct (IH Hlater) as (before & site & url & after & -> & Hbefore & Hsite).
    exists ((s, u) :: before), site, url, after. split; [done|].
    split; [by constructor|done].
Qed.

Lemma open_phrase_names_site q :
  Py.any_in OPEN_SITE_PHRASES q = true →
  Exists (fun entry : string * string => occurs_in entry.1 q) SITES.
Proof.
  intros (kw & Hin & Hocc)%any_in_spec. apply Exists_exists.
  apply list_elem_of_In in Hin. simpl in Hin.
  repeat (destruct Hin as [<-|Hin];
          [match type of Hocc with
           | occurs_in (String _ (String _ (String _ (String _ (String _ ?site))))) _ =>
               eexists (site, _); split; [by repeat constructor|];
               exact (occurs_in_inner site "open " "" q Hocc)
           end|]).
  done.
Qed.

Section OpenSite.

Context (E : Env).

(** X19. Reached through the dispatcher, [cmd_open_site] always opens a
    page.  Every input routed to it names one of the sites, so the page
    of the first site, in the order of [SITES], that the input names is
    opened after the announcement, and [dispatch] goes on; the question
    "Which website" is only asked when the handler gets an input that
    names no site, which the routing table never hands it. *)
Theorem open_site_opens_first_named q w :
  (q ≠ "" → ¬ any_occurs EXIT_KEYWORDS q →
   route COMMAND_TABLE q = Some CmdOpenSite →
   ∃ before site url after,
     SITES = before ++ (site, url) :: after ∧
     Forall (fun entry : string * string => ¬ occurs_in entry.1 q) before ∧
     occurs_in site q ∧
     dispatch (with_handlers E) q w
     = (Val true, emit (OpenUrl url) (emit (Say ("Opening " +:+ site +:+ ".")) w))) ∧
  (Forall (fun entry : string * string => ¬ occurs_in entry.1 q) SITES →
   cmd_open_site q w
   = (Val tt, emit (Say "Which website would you like me to open?") w)).
Proof.
  split; [|apply open_site_from_none].
  intros Hq Hexit Hroute.
  assert (Py.any_in OPEN_SITE_PHRASES q = true) as Hphrase.
  { revert Hroute. unfold COMMAND_TABLE. cbn [route].
    repeat match goal with
           | |- context [if Py.any_in ?k q then _ else _] =>
               destruct (Py.any_in k q) eqn:?; try discriminate
           end; done. }
  destruct (first_named_site SITES q (open_phrase_names_site q Hphrase))
    as (before & site & url & after & Hsplit & Hbefore & Hsite).
  exists before, site, url, after. split; [done|]. split; [done|]. split; [done|].
  rewrite dispatch_route, Hroute by done.
  unfold bind, guarded, try_except_Exception. cbn [call with_handlers external].
  unfold cmd_open_site.
  by rewrite (open_site_from_first SITES q before site url after w Hsplit Hbefore Hsite).
Qed.

End OpenSite.

Lemma open_site_opens_first_named_witness :
  ∃ before site url after,
    SITES = before ++ (site, url) :: after ∧
    Forall (fun entry : string * string => ¬ occurs_in entry.1 "open google maps") before ∧
    occurs_in site "open google maps" ∧
    dispatch (with_handlers (sample_env [])) "open google maps" started_world
    = (Val true,
       emit (OpenUrl url) (emit (Say ("Opening " +:+ site +:+ ".")) started_world)).
Proof.
  apply (proj1 (open_site_opens_first_named (sample_env []) "open google maps"
                  started_world)).
  - done.
  - by apply any_in_false.
  - reflexivity.
Defined.
